(** * QuakeTrakr: the client-side derivation of the earthquake dashboard

    A shallow embedding of the page component [QuakeTrakr]
    (src/components/earthquake-card.tsx, lines 78-337) and of the types it
    imports (src/unnamed/part_000): the magnitude filter
    [filteredEarthquakes], the aggregate [stats], the [FilterState] updates
    done with [setFilters], and the part of the rendered tree that depends
    on [data], [error] and [isLoading].

    JavaScript numbers are IEEE-754 binary64 values.  The program is written
    once over an interface [JsNumber] of the arithmetic it uses and is run
    at two instances: [Double], the kernel's primitive binary64 floats (the
    arithmetic the browser performs), and [Exact], the rationals (the same
    expressions without rounding). *)

From Stdlib Require Import String.
From Stdlib Require Import List Bool Arith Lia ZArith QArith Lqa.
From Stdlib Require Import Floats Uint63 DecimalString.
Import ListNotations.

Close Scope Q_scope.
Set Implicit Arguments.
Set Warnings "-inexact-float".

(** ** Numbers *)

(** The operations the component applies to numbers: integer literals and
    array lengths ([0], [5], [10], [magnitudes.length]), [a + b], [a / b],
    [a <= b] (and [a >= b], its converse) and [Math.max(...xs)]. *)
Class JsNumber (num : Type) : Type := {
  num_of_nat : nat -> num;
  num_add : num -> num -> num;
  num_div : num -> num -> num;
  num_leb : num -> num -> bool;
  Math_max : list num -> num
}.

(** A value read from the feed's JSON where the code expects a number:
    [null], [undefined] (the member is missing) or a number. *)
Inductive JsValue (num : Type) : Type :=
| JsNull : JsValue num
| JsUndefined : JsValue num
| JsNum : num -> JsValue num.

Arguments JsNull {num}.
Arguments JsUndefined {num}.
Arguments JsNum {num} _.

(** ** Types of src/unnamed/part_000 *)

(** [EarthquakeProperties]: of its members the derivation reads [mag] only;
    [place] stands for the members that are passed through to the cards. *)
Record EarthquakeProperties (num : Type) : Type := {
  mag : JsValue num;
  place : string
}.

Record Earthquake (num : Type) : Type := {
  properties : EarthquakeProperties num;
  id : string
}.

Record EarthquakeResponse (num : Type) : Type := {
  features : list (Earthquake num)
}.

Inductive TimeFrame : Type := hour | day | week | month.

Record FilterState (num : Type) : Type := {
  timeframe : TimeFrame;
  minMagnitude : num;
  maxMagnitude : num
}.

(** The object built by [stats]; its members carry the prefix [stats_]
    because [maxMagnitude] is a member of [FilterState] too. *)
Record Stats (num : Type) : Type := {
  stats_total : nat;
  stats_avgMagnitude : num;
  stats_maxMagnitude : num;
  stats_significant : nat
}.

(** Which [return] of the [stats] callback produced the object: line 126
    (empty list), line 139 (no magnitude left after the type guard) or
    line 147 (the aggregate). *)
Inductive StatsReturn : Type :=
| ReturnEmpty
| ReturnNoMagnitude
| ReturnAggregate.

(** What [useSWR] hands to the component. *)
Record SWRResponse (num : Type) : Type := {
  data : option (EarthquakeResponse num);
  error : option string;
  isLoading : bool
}.

(** The user's actions on the filter card: a timeframe button (line 186),
    the minimum slider (line 208), the maximum slider (line 221). *)
Inductive FilterAction (num : Type) : Type :=
| ClickTimeframe : TimeFrame -> FilterAction num
| SlideMinMagnitude : num -> FilterAction num
| SlideMaxMagnitude : num -> FilterAction num.

Arguments ClickTimeframe {num} _.

(** What [res.json()] of line 92 yields for a body that is JSON: an object
    with a [features] array (the expected schema); a truthy value without a
    [features] member (an object of another shape, an array, a non-empty
    string, a non-zero number, [true]); or a falsy value ([null], [false],
    [0], the empty string). *)
Inductive FeedBody (num : Type) : Type :=
| FeatureCollection : EarthquakeResponse num -> FeedBody num
| NoFeatures : FeedBody num
| FalsyBody : FeedBody num.

Arguments NoFeatures {num}.
Arguments FalsyBody {num}.

(** What [fetch(url)] of line 92 ends with: the request itself fails; or a
    response arrives, with its status, whose body is not JSON; or a response
    arrives, with its status, whose body is JSON. *)
Inductive FetchResult (num : Type) : Type :=
| NetworkFailure : string -> FetchResult num
| NotJson : nat -> string -> FetchResult num
| Json : nat -> FeedBody num -> FetchResult num.

Arguments NetworkFailure {num} _.
Arguments NotJson {num} _ _.

(** How the promise returned by [fetcher] settles. *)
Inductive FetchOutcome (num : Type) : Type :=
| FetchResolved : FeedBody num -> FetchOutcome num
| FetchRejected : string -> FetchOutcome num.

Arguments FetchRejected {num} _.

(** The state behind [useSWR]: the key (the address of the feed) it
    belongs to, the value last resolved for that key, the error of the last
    request if it was rejected, and whether the first request is pending. *)
Record FeedState (num : Type) : Type := {
  feed_key : string;
  feed_data : option (FeedBody num);
  feed_error : option string;
  feed_isLoading : bool
}.

(** The state of the page: the [filters] of [useState] and the state behind
    [useSWR]. *)
Record Page (num : Type) : Type := {
  page_filters : FilterState num;
  page_feed : FeedState num
}.

(** What happens to the page: an action of the user on the filter card, or
    the settling of a request that was sent for a key. *)
Inductive PageEvent (num : Type) : Type :=
| UserAction : FilterAction num -> PageEvent num
| FetchSettled : string -> FetchOutcome num -> PageEvent num.

(** The three regions of the page that depend on the feed: the statistics
    grid (lines 234-277), the line "Showing n of m earthquakes" (lines
    283-287) and the list (lines 290-314). *)
Inductive StatsPanel (num : Type) : Type :=
| StatsSkeleton : StatsPanel num
| FailedToLoad : StatsPanel num
| StatsCards : Stats num -> string -> StatsPanel num.

Arguments StatsSkeleton {num}.
Arguments FailedToLoad {num}.

Inductive ListPanel (num : Type) : Type :=
| ListSkeleton : ListPanel num
| NoEarthquakesFound : ListPanel num
| EarthquakeCards : list (Earthquake num) -> ListPanel num.

Arguments ListSkeleton {num}.
Arguments NoEarthquakesFound {num}.

Record View (num : Type) : Type := {
  statsPanel : StatsPanel num;
  showing : option (nat * nat);
  listPanel : ListPanel num
}.

(** ** The component *)

Section Component.

Context {num : Type} {N : JsNumber num}.

(** [v !== null] and [v !== undefined]. *)
Definition strict_ne_null (v : JsValue num) : bool :=
  match v with JsNull => false | _ => true end.

Definition strict_ne_undefined (v : JsValue num) : bool :=
  match v with JsUndefined => false | _ => true end.

(** [ToNumber] of the relational operators: [null] converts to [0];
    [undefined] converts to NaN, which compares false with everything. *)
Definition js_ge (v : JsValue num) (n : num) : bool :=
  match v with
  | JsNull => num_leb n (num_of_nat 0)
  | JsUndefined => false
  | JsNum m => num_leb n m
  end.

Definition js_le (v : JsValue num) (n : num) : bool :=
  match v with
  | JsNull => num_leb (num_of_nat 0) n
  | JsUndefined => false
  | JsNum m => num_leb m n
  end.

(** Lines 94-99. *)
Definition timeframeConfig (tf : TimeFrame) : string * string :=
  match tf with
  | hour => ("Past Hour", "all_hour")
  | day => ("Past Day", "all_day")
  | week => ("Past Week", "all_week")
  | month => ("Past Month", "all_month")
  end%string.

(** Lines 102-106: the argument of [useState]. *)
Definition initial_filters : FilterState num :=
  {| timeframe := day;
     minMagnitude := num_of_nat 0;
     maxMagnitude := num_of_nat 10 |}.

(** Lines 108-110: the key given to [useSWR]. *)
Definition feed_url (filters : FilterState num) : string :=
  ("https://earthquake.usgs.gov/earthquakes/feed/v1.0/summary/"
     ++ snd (timeframeConfig (timeframe filters)) ++ ".geojson")%string.

(** Lines 117-121: the callback of [data.features.filter]. *)
Definition in_magnitude_range (filters : FilterState num) (eq : Earthquake num) : bool :=
  let mag := mag (properties eq) in
  strict_ne_null mag && strict_ne_undefined mag
    && js_ge mag (minMagnitude filters) && js_le mag (maxMagnitude filters).

(** Lines 115-122.  [features] is an array by its type, hence truthy:
    [!data?.features] holds exactly when [data] is [undefined]. *)
Definition filteredEarthquakes
    (data : option (EarthquakeResponse num)) (filters : FilterState num)
  : list (Earthquake num) :=
  match data with
  | None => []
  | Some d => filter (in_magnitude_range filters) (features d)
  end.

(** Line 136: [.filter((mag): mag is number => mag !== null && mag !==
    undefined)]; the type guard turns the result into a [number[]]. *)
Fixpoint keep_numbers (l : list (JsValue num)) : list num :=
  match l with
  | [] => []
  | v :: l' =>
      if strict_ne_null v && strict_ne_undefined v
      then match v with JsNum m => m :: keep_numbers l' | _ => keep_numbers l' end
      else keep_numbers l'
  end.

(** Lines 134-136. *)
Definition magnitudes (filteredEarthquakes : list (Earthquake num)) : list num :=
  keep_numbers (map (fun eq => mag (properties eq)) filteredEarthquakes).

(** Line 151: the callback of the [significant] filter. *)
Definition is_significant (eq : Earthquake num) : bool :=
  strict_ne_null (mag (properties eq)) && js_ge (mag (properties eq)) (num_of_nat 5).

(** Lines 124-153, with the [return] that was taken. *)
Definition stats_traced (filteredEarthquakes : list (Earthquake num))
  : StatsReturn * Stats num :=
  if length filteredEarthquakes =? 0 then
    (ReturnEmpty,
     {| stats_total := 0;
        stats_avgMagnitude := num_of_nat 0;
        stats_maxMagnitude := num_of_nat 0;
        stats_significant := 0 |})
  else
    let magnitudes := magnitudes filteredEarthquakes in
    if length magnitudes =? 0 then
      (ReturnNoMagnitude,
       {| stats_total := length filteredEarthquakes;
          stats_avgMagnitude := num_of_nat 0;
          stats_maxMagnitude := num_of_nat 0;
          stats_significant := 0 |})
    else
      (ReturnAggregate,
       {| stats_total := length filteredEarthquakes;
          stats_avgMagnitude :=
            num_div (fold_left (fun a b => num_add a b) magnitudes (num_of_nat 0))
                    (num_of_nat (length magnitudes));
          stats_maxMagnitude := Math_max magnitudes;
          stats_significant := length (filter is_significant filteredEarthquakes) |}).

Definition stats (filteredEarthquakes : list (Earthquake num)) : Stats num :=
  snd (stats_traced filteredEarthquakes).

(** Lines 186, 208 and 221: [setFilters({ ...filters, member: value })]. *)
Definition setFilters (filters : FilterState num) (a : FilterAction num)
  : FilterState num :=
  match a with
  | ClickTimeframe tf =>
      {| timeframe := tf;
         minMagnitude := minMagnitude filters;
         maxMagnitude := maxMagnitude filters |}
  | SlideMinMagnitude value =>
      {| timeframe := timeframe filters;
         minMagnitude := value;
         maxMagnitude := maxMagnitude filters |}
  | SlideMaxMagnitude value =>
      {| timeframe := timeframe filters;
         minMagnitude := minMagnitude filters;
         maxMagnitude := value |}
  end.

(** Lines 209-210 and 222-223: both sliders are given [min={0}] and
    [max={10}].  The values a slider can pass to [onValueChange] are those
    of its own range; [action_allowed] is the hypothesis under which the
    updates are studied. *)
Definition slider_value (value : num) : bool :=
  num_leb (num_of_nat 0) value && num_leb value (num_of_nat 10).

Definition action_allowed (a : FilterAction num) : bool :=
  match a with
  | ClickTimeframe _ => true
  | SlideMinMagnitude value => slider_value value
  | SlideMaxMagnitude value => slider_value value
  end.

Definition run_actions (filters : FilterState num) (l : list (FilterAction num))
  : FilterState num :=
  fold_left setFilters l filters.

(** The invariant the specification gives for [FilterState]:
    [0 <= minMagnitude <= maxMagnitude <= 10]. *)
Definition FilterState_invariant (filters : FilterState num) : bool :=
  num_leb (num_of_nat 0) (minMagnitude filters)
    && num_leb (minMagnitude filters) (maxMagnitude filters)
    && num_leb (maxMagnitude filters) (num_of_nat 10).

(** Each bound within the range of its slider. *)
Definition bounds_in_slider_range (filters : FilterState num) : bool :=
  slider_value (minMagnitude filters) && slider_value (maxMagnitude filters).

(** Modelled from the spec: [useSWR] is a dependency whose code is not in
    the repository.  Section 4.4 of the specification: the first state is
    Loading, without snapshot and without error. *)
Definition swr_loading : SWRResponse num :=
  {| data := None; error := None; isLoading := true |}.

(** Modelled from the spec: the state of [useSWR], a dependency whose code
    is not in the repository, when a key is first requested (section 4.4):
    Loading, without snapshot and without error. *)
Definition feed_loading (key : string) : FeedState num :=
  {| feed_key := key; feed_data := None; feed_error := None; feed_isLoading := true |}.

(** Modelled from the spec: the state of [useSWR] once a request sent for
    [key] has settled (sections 3, 4.1 and 4.4).  A request whose key is no
    longer the active one is discarded on completion.  Otherwise, on success
    the snapshot is replaced and the error cleared; on failure the error is
    set and the snapshot, if any, is retained. *)
Definition swr_settle (st : FeedState num) (key : string) (o : FetchOutcome num)
  : FeedState num :=
  if String.eqb key (feed_key st) then
    match o with
    | FetchResolved body =>
        {| feed_key := feed_key st; feed_data := Some body;
           feed_error := None; feed_isLoading := false |}
    | FetchRejected e =>
        {| feed_key := feed_key st; feed_data := feed_data st;
           feed_error := Some e; feed_isLoading := false |}
    end
  else st.

(** Modelled from the spec: the state of [useSWR] when the component is
    rendered with [key] (sections 3 and 4.1).  The snapshot is tagged with
    the timeframe it was fetched for: under the same key the state is kept;
    under another key the feed is requested again and the state is Loading
    for the new key. *)
Definition swr_key_change (st : FeedState num) (key : string) : FeedState num :=
  if String.eqb key (feed_key st) then st else feed_loading key.

(** Lines 155-336, the three regions that depend on the feed.  The cards
    format the numbers with [toFixed]; the view keeps the numbers. *)
Definition QuakeTrakr (filters : FilterState num) (swr : SWRResponse num) : View num :=
  let filteredEarthquakes := filteredEarthquakes (data swr) filters in
  let stats := stats filteredEarthquakes in
  {| statsPanel :=
       if isLoading swr then StatsSkeleton
       else match error swr with
            | Some _ => FailedToLoad
            | None => StatsCards stats (fst (timeframeConfig (timeframe filters)))
            end;
     showing :=
       match data swr with
       | Some d => Some (length filteredEarthquakes, length (features d))
       | None => None
       end;
     listPanel :=
       if isLoading swr then ListSkeleton
       else if length filteredEarthquakes =? 0 then NoEarthquakesFound
       else EarthquakeCards filteredEarthquakes |}.

(** Line 92: [fetch(url).then((res) => res.json())].  The status of the
    response is not looked at (there is no test of [res.ok]): a body that
    parses is the resolved value whatever the status; the promise is
    rejected when the request fails or when the body does not parse. *)
Definition fetcher (r : FetchResult num) : FetchOutcome num :=
  match r with
  | NetworkFailure e => FetchRejected e
  | NotJson _ e => FetchRejected e
  | Json _ body => FetchResolved body
  end.

(** The [data] of the hook as lines 116 and 283 see it: the response when
    it has its [features]; otherwise [!data?.features] holds and line 116
    returns the empty list, as for [undefined]. *)
Definition data_with_features (feed : FeedState num) : option (EarthquakeResponse num) :=
  match feed_data feed with
  | Some (FeatureCollection d) => Some d
  | _ => None
  end.

(** Lines 101-336 on a state of the page.  When [data] is truthy and has no
    [features], line 116 returns the empty list but line 285 reads
    [data.features.length]: a TypeError is thrown while rendering ([None]).
    When [data] is falsy, [data && ...] of line 283 renders no line
    "Showing", as for [undefined]. *)
Definition page_view (p : Page num) : option (View num) :=
  match feed_data (page_feed p) with
  | Some NoFeatures => None
  | _ =>
      Some (QuakeTrakr (page_filters p)
              {| data := data_with_features (page_feed p);
                 error := feed_error (page_feed p);
                 isLoading := feed_isLoading (page_feed p) |})
  end.

(** The page when the component is mounted. *)
Definition initial_page : Page num :=
  {| page_filters := initial_filters;
     page_feed := feed_loading (feed_url initial_filters) |}.

(** One event on a rendered page: [setFilters] of lines 186, 208 and 221
    followed by the render with the key of lines 108-110, or the settling of
    a request. *)
Definition page_update (p : Page num) (ev : PageEvent num) : Page num :=
  match ev with
  | UserAction a =>
      {| page_filters := setFilters (page_filters p) a;
         page_feed := swr_key_change (page_feed p)
                        (feed_url (setFilters (page_filters p) a)) |}
  | FetchSettled key o =>
      {| page_filters := page_filters p;
         page_feed := swr_settle (page_feed p) key o |}
  end.

(** One event.  Once the render has thrown, the component is no longer
    mounted: there is no control left to act on and no hook left to receive
    a response, so the page stays as it is. *)
Definition page_step (p : Page num) (ev : PageEvent num) : Page num :=
  match page_view p with
  | Some _ => page_update p ev
  | None => p
  end.

Definition run_page (p : Page num) (events : list (PageEvent num)) : Page num :=
  fold_left page_step events p.

(** Requests for [key] rejected one after the other. *)
Definition rejections (key : string) (errors : list string) : list (PageEvent num) :=
  map (fun e => FetchSettled key (FetchRejected e)) errors.

End Component.

(** ** The two number instances *)

Module Double.

(** An integer literal or an array length as a binary64 value (exact
    below 2^53; an array has fewer than 2^32 elements). *)
Definition of_nat (n : nat) : float :=
  PrimFloat.of_uint63 (Uint63.of_Z (Z.of_nat n)).

(** One step of [Math.max]: NaN if an argument is NaN, otherwise the
    larger argument, [+0] counting as larger than [-0]. *)
Definition max2 (a b : float) : float :=
  if PrimFloat.is_nan a || PrimFloat.is_nan b then PrimFloat.nan
  else if PrimFloat.ltb a b then b
  else if PrimFloat.ltb b a then a
  else match PrimFloat.classify a with
       | NZero => b
       | _ => a
       end.

(** [Math.max(...xs)]; [-Infinity] when there is no argument. *)
Definition max (xs : list float) : float :=
  fold_left max2 xs PrimFloat.neg_infinity.

#[global] Instance number : JsNumber float := {|
  num_of_nat := of_nat;
  num_add := PrimFloat.add;
  num_div := PrimFloat.div;
  num_leb := PrimFloat.leb;
  Math_max := max
|}.

End Double.

Module Exact.

Definition of_nat (n : nat) : Q := inject_Z (Z.of_nat n).

Definition max2 (a b : Q) : Q := if Qle_bool a b then b else a.

(** The rationals have no [-Infinity]: the maximum of no argument is left
    at [0].  The component calls [Math.max] after the guard of line 138
    only, on a non-empty array. *)
Definition max (xs : list Q) : Q :=
  match xs with
  | [] => 0%Q
  | x :: xs' => fold_left max2 xs' x
  end.

#[global] Instance number : JsNumber Q := {|
  num_of_nat := of_nat;
  num_add := Qplus;
  num_div := Qdiv;
  num_leb := Qle_bool;
  Math_max := max
|}.

(** The least and the greatest element of a list of rationals, by the
    words of the specification ([min(magnitudes)], [max(magnitudes)]);
    [d] is returned for the empty list. *)
Definition list_min (d : Q) (l : list Q) : Q :=
  match l with
  | [] => d
  | x :: l' => fold_left (fun a b => if Qle_bool b a then b else a) l' x
  end.

Definition list_max (d : Q) (l : list Q) : Q :=
  match l with
  | [] => d
  | x :: l' => fold_left (fun a b => if Qle_bool a b then b else a) l' x
  end.

End Exact.

(** ** Notions of the specification *)

(** [l1] is a subsequence of [l2]: [l2] with some elements removed, the
    others kept in their order. *)
Inductive Subsequence (A : Type) : list A -> list A -> Prop :=
| Subsequence_nil : Subsequence [] []
| Subsequence_skip : forall x l1 l2, Subsequence l1 l2 -> Subsequence l1 (x :: l2)
| Subsequence_keep : forall x l1 l2, Subsequence l1 l2 -> Subsequence (x :: l1) (x :: l2).

(** The magnitude of an event is present: neither [null] nor [undefined]. *)
Definition magnitude_present (num : Type) (eq : Earthquake num) : bool :=
  match mag (properties eq) with
  | JsNum _ => true
  | _ => false
  end.

(** The rule of the Filter Engine, by the words of the specification: the
    magnitude is present and [minMagnitude <= magnitude <= maxMagnitude]. *)
Definition spec_included (num : Type) {N : JsNumber num}
    (min max : num) (eq : Earthquake num) : bool :=
  match mag (properties eq) with
  | JsNum m => num_leb min m && num_leb m max
  | _ => false
  end.

(** A significant event, by the words of the specification: the magnitude
    is present and at least 5.0. *)
Definition spec_significant (num : Type) {N : JsNumber num}
    (eq : Earthquake num) : bool :=
  match mag (properties eq) with
  | JsNum m => num_leb (num_of_nat 5) m
  | _ => false
  end.

(** The magnitudes of the events with a present magnitude, in the order
    of the events. *)
Definition present_magnitudes (num : Type) (l : list (Earthquake num)) : list num :=
  flat_map (fun eq => match mag (properties eq) with
                      | JsNum m => [m]
                      | _ => []
                      end) l.

(** The statistics with every member zero. *)
Definition zero_stats (num : Type) {N : JsNumber num} : Stats num :=
  {| stats_total := 0;
     stats_avgMagnitude := num_of_nat 0;
     stats_maxMagnitude := num_of_nat 0;
     stats_significant := 0 |}.

(** ** Sample feeds *)

Module Samples.

Definition quake (id : string) (m : JsValue float) (place : string) : Earthquake float :=
  {| properties := {| mag := m; place := place |}; id := id |}.

(** The events of the scenarios of section 8 of the specification. *)
Definition quake1 : Earthquake float := quake "1" (JsNum 6.2%float) "Tonga".
Definition quake2 : Earthquake float := quake "2" JsNull "Alaska".
Definition quake3 : Earthquake float := quake "3" (JsNum 4.8%float) "Chile".
Definition quake4 : Earthquake float := quake "4" (JsNum 5.0%float) "Japan".

Definition scenario : EarthquakeResponse float :=
  {| features := [quake1; quake2; quake3; quake4] |}.

Definition from_5_to_10 : FilterState float :=
  {| timeframe := day; minMagnitude := 5.0%float; maxMagnitude := 10%float |}.

Definition exactly_5 : FilterState float :=
  {| timeframe := day; minMagnitude := 5.0%float; maxMagnitude := 5.0%float |}.

(** An event whose [mag] member is missing. *)
Definition quake_no_mag : Earthquake float := quake "5" JsUndefined "Nevada".

(** Three small events of one magnitude. *)
Definition tremor (id : string) : Earthquake float := quake id (JsNum 0.1%float) "Hawaii".

Definition tremors : list (Earthquake float) := [tremor "a"; tremor "b"; tremor "c"].

(** The minimum slider moved to 5, then the maximum slider moved to 3. *)
Definition crossing_sliders : list (FilterAction float) :=
  [SlideMinMagnitude 5%float; SlideMaxMagnitude 3%float].

(** The same kind of events over the rationals. *)
Definition exact_quake (id : string) (m : Q) : Earthquake Q :=
  {| properties := {| mag := JsNum m; place := "Tonga" |}; id := id |}.

Definition exact_subset : list (Earthquake Q) :=
  [exact_quake "1" (62 # 10); exact_quake "3" (48 # 10); exact_quake "4" (5 # 1)].

End Samples.

(** ** The presentation of one event and of the controls *)

Section Presentation.

Context {num : Type} {N : JsNumber num}.

(** Lines 10-17 of src/components/earthquake-card.tsx. *)
Definition getMagnitudeColor (magnitude : num) : string :=
  if num_leb (num_of_nat 7) magnitude then "bg-destructive text-destructive-foreground"
  else if num_leb (num_of_nat 6) magnitude then "bg-orange-500 text-white"
  else if num_leb (num_of_nat 5) magnitude then "bg-amber-500 text-white"
  else if num_leb (num_of_nat 4) magnitude then "bg-yellow-500 text-black"
  else if num_leb (num_of_nat 3) magnitude then "bg-lime-500 text-black"
  else "bg-green-500 text-white".

(** Lines 42-44: the [Badge] of [EarthquakeCard].  Its text is
    [properties.mag.toFixed(1)]: reading [toFixed] of [null] or of
    [undefined] throws a TypeError ([None]); for a number the badge carries
    its class name and the number that [toFixed] formats. *)
Definition magnitude_badge (earthquake : Earthquake num) : option (string * num) :=
  match mag (properties earthquake) with
  | JsNum m => Some ((getMagnitudeColor m ++ " font-bold text-base px-3 py-1")%string, m)
  | _ => None
  end.

(** Lines 310-312: one card per element of [filteredEarthquakes]; the
    badges of the cards of a list panel. *)
Definition card_badges (p : ListPanel num) : list (option (string * num)) :=
  match p with
  | EarthquakeCards l => map magnitude_badge l
  | _ => []
  end.

(** [filters.timeframe === tf]. *)
Definition TimeFrame_eqb (a b : TimeFrame) : bool :=
  match a, b with
  | hour, hour | day, day | week, week | month, month => true
  | _, _ => false
  end.

(** Lines 182-190: one button per key of [timeframeConfig], in the order of
    the object literal; each with its key, its [variant] and its label. *)
Definition timeframes : list TimeFrame := [hour; day; week; month].

Definition timeframe_buttons (filters : FilterState num)
  : list (TimeFrame * string * string) :=
  map (fun tf =>
         (tf,
          if TimeFrame_eqb (timeframe filters) tf then "default" else "outline",
          fst (timeframeConfig tf))%string)
      timeframes.

End Presentation.

(** The decimal digits of an integer, as a template literal prints an
    integral number. *)
Definition string_of_Z (z : Z) : string := NilZero.string_of_int (Z.to_int z).

(** A time value of a [Date] since the epoch: an integral number of
    milliseconds from 0 to 8.64e15, which is below 2^53. *)
Definition time_value (t : Z) : Prop := (0 <= t <= 8640000000000000)%Z.

(** Lines 19-30.  [now] is the value of [new Date().getTime()] at the call.
    Time values are integral numbers of milliseconds, here integers: for two
    time values since the epoch the subtraction is exact in binary64 (the
    difference is below 2^53 in absolute value), and [Math.floor] of the
    rounded quotient by each of the three constants is the floor of the
    exact quotient, which [Z.div] computes. *)
Definition formatTime (now timestamp : Z) : string :=
  let diffMs := (now - timestamp)%Z in
  let diffMins := (diffMs / 60000)%Z in
  let diffHours := (diffMs / 3600000)%Z in
  let diffDays := (diffMs / 86400000)%Z in
  if (diffMins <? 60)%Z then (string_of_Z diffMins ++ " min ago")%string
  else if (diffHours <? 24)%Z then
    (string_of_Z diffHours ++ " hour"
       ++ (if (1 <? diffHours)%Z then "s" else EmptyString) ++ " ago")%string
  else
    (string_of_Z diffDays ++ " day"
       ++ (if (1 <? diffDays)%Z then "s" else EmptyString) ++ " ago")%string.

Module MoreSamples.

(** An event below magnitude 0 and one above magnitude 10. *)
Definition microquake : Earthquake float := Samples.quake "6" (JsNum (-0.5)%float) "Utah".
Definition megaquake : Earthquake float := Samples.quake "7" (JsNum 10.5%float) "Nowhere".

Definition wide_feed : EarthquakeResponse float :=
  {| features := [microquake; Samples.quake1; Samples.quake2; Samples.quake3;
                  Samples.quake4; megaquake] |}.

Definition below_5 : FilterState float :=
  {| timeframe := week; minMagnitude := 0%float; maxMagnitude := 4.9%float |}.

Definition loaded (d : EarthquakeResponse float) : SWRResponse float :=
  {| data := Some d; error := None; isLoading := false |}.

(** A list with two events without magnitude and two with one. *)
Definition half_absent : list (Earthquake float) :=
  [Samples.quake2; Samples.quake1; Samples.quake3; Samples.quake_no_mag].

(** 1 January 2025, 00:00:00 UTC, in milliseconds. *)
Definition new_year : Z := 1735689600000%Z.

End MoreSamples.

(** * Properties *)

(** ** Lists *)

Section ListFacts.

Variable A : Type.
Variable f : A -> bool.

Lemma filter_Subsequence (l : list A) : Subsequence (filter f l) l.
Proof.
  induction l as [|x l IH]; simpl.
  - constructor.
  - destruct (f x); constructor; exact IH.
Qed.

Lemma Subsequence_length (l1 l2 : list A) :
  Subsequence l1 l2 -> length l1 <= length l2.
Proof.
  induction 1; simpl; lia.
Qed.

Lemma Subsequence_In (l1 l2 : list A) :
  Subsequence l1 l2 -> forall x, In x l1 -> In x l2.
Proof.
  induction 1 as [|y l1 l2 _ IH|y l1 l2 _ IH]; simpl; intros x Hx.
  - exact Hx.
  - right. apply IH, Hx.
  - destruct Hx as [Hx|Hx]; [left; exact Hx | right; apply IH, Hx].
Qed.

Lemma filter_fixed (l : list A) :
  (forall x, In x l -> f x = true) -> filter f l = l.
Proof.
  induction l as [|x l IH]; simpl; intros H.
  - reflexivity.
  - rewrite (H x (or_introl eq_refl)). f_equal. apply IH.
    intros y Hy. apply H. right. exact Hy.
Qed.

Lemma filter_idempotent (l : list A) : filter f (filter f l) = filter f l.
Proof.
  apply filter_fixed. intros x Hx. apply filter_In in Hx. apply Hx.
Qed.

Lemma filter_none (l : list A) :
  (forall x, In x l -> f x = false) -> filter f l = [].
Proof.
  induction l as [|x l IH]; simpl; intros H.
  - reflexivity.
  - rewrite (H x (or_introl eq_refl)). apply IH.
    intros y Hy. apply H. right. exact Hy.
Qed.

Lemma filter_pointwise (g : A -> bool) (l : list A) :
  (forall x, f x = g x) -> filter f l = filter g l.
Proof.
  intros H. induction l as [|x l IH]; simpl.
  - reflexivity.
  - rewrite H, IH. reflexivity.
Qed.

End ListFacts.

(** ** The component at every number instance *)

Section ComponentFacts.

Context {num : Type} {N : JsNumber num}.

Implicit Types (filters : FilterState num) (eq : Earthquake num).

(** The callback of the filter decides the rule of the specification. *)
Lemma in_magnitude_range_spec filters eq :
  in_magnitude_range filters eq
  = spec_included (minMagnitude filters) (maxMagnitude filters) eq.
Proof.
  unfold in_magnitude_range, spec_included.
  destruct (mag (properties eq)); reflexivity.
Qed.

Lemma spec_included_true (min max : num) eq :
  spec_included min max eq = true <->
  exists m, mag (properties eq) = JsNum m
            /\ num_leb min m = true /\ num_leb m max = true.
Proof.
  unfold spec_included. destruct (mag (properties eq)) as [| |m].
  - split; [discriminate | intros (m & H & _); discriminate].
  - split; [discriminate | intros (m & H & _); discriminate].
  - rewrite andb_true_iff. split.
    + intros H. exists m. split; [reflexivity | exact H].
    + intros (m' & H & H'). injection H as ->. exact H'.
Qed.

Lemma in_magnitude_range_present filters eq :
  in_magnitude_range filters eq = true -> magnitude_present eq = true.
Proof.
  unfold in_magnitude_range, magnitude_present.
  destruct (mag (properties eq)); simpl; intros H; congruence.
Qed.

Lemma filteredEarthquakes_present data filters eq :
  In eq (filteredEarthquakes data filters) -> magnitude_present eq = true.
Proof.
  destruct data as [d|]; simpl; [|contradiction].
  intros H. apply filter_In in H.
  apply (in_magnitude_range_present filters), H.
Qed.

(** The type guard of line 136 keeps one number per present magnitude. *)
Lemma magnitudes_length (l : list (Earthquake num)) :
  length (magnitudes l) = length (filter (@magnitude_present num) l).
Proof.
  unfold magnitudes, magnitude_present.
  induction l as [|eq l IH]; simpl.
  - reflexivity.
  - destruct (mag (properties eq)); simpl; rewrite ?IH; reflexivity.
Qed.

Lemma magnitudes_all_present (l : list (Earthquake num)) :
  (forall eq, In eq l -> magnitude_present eq = true) ->
  length (magnitudes l) = length l.
Proof.
  intros H. rewrite magnitudes_length, filter_fixed; [reflexivity | exact H].
Qed.

Lemma magnitudes_none_present (l : list (Earthquake num)) :
  (forall eq, In eq l -> magnitude_present eq = false) ->
  magnitudes l = [].
Proof.
  intros H. apply length_zero_iff_nil.
  rewrite magnitudes_length, filter_none; [reflexivity | exact H].
Qed.

(** The callback of line 151 decides "present and at least 5". *)
Lemma is_significant_spec eq : is_significant eq = spec_significant eq.
Proof.
  unfold is_significant, spec_significant.
  destruct (mag (properties eq)); reflexivity.
Qed.

Lemma spec_significant_present eq :
  spec_significant eq = true -> magnitude_present eq = true.
Proof.
  unfold spec_significant, magnitude_present.
  destruct (mag (properties eq)); congruence.
Qed.

(** The three returns of [stats], by their guards. *)
Lemma stats_traced_empty : stats_traced (@nil (Earthquake num)) = (ReturnEmpty, zero_stats).
Proof. reflexivity. Qed.

Lemma stats_traced_no_magnitude (l : list (Earthquake num)) :
  l <> [] -> magnitudes l = [] ->
  stats_traced l
  = (ReturnNoMagnitude,
     {| stats_total := length l;
        stats_avgMagnitude := num_of_nat 0;
        stats_maxMagnitude := num_of_nat 0;
        stats_significant := 0 |}).
Proof.
  intros Hl Hm. unfold stats_traced.
  destruct l as [|eq l]; [contradiction|].
  simpl length at 1. simpl Nat.eqb at 1. cbv iota.
  cbv zeta. rewrite Hm. reflexivity.
Qed.

Lemma stats_traced_aggregate (l : list (Earthquake num)) :
  magnitudes l <> [] ->
  stats_traced l
  = (ReturnAggregate,
     {| stats_total := length l;
        stats_avgMagnitude :=
          num_div (fold_left (fun a b => num_add a b) (magnitudes l) (num_of_nat 0))
                  (num_of_nat (length (magnitudes l)));
        stats_maxMagnitude := Math_max (magnitudes l);
        stats_significant := length (filter is_significant l) |}).
Proof.
  intros Hm. unfold stats_traced.
  destruct l as [|eq l]; [exfalso; apply Hm; reflexivity|].
  simpl length at 1. simpl Nat.eqb at 1. cbv iota. cbv zeta.
  destruct (magnitudes (eq :: l)) as [|m ms] eqn:E; [contradiction|].
  reflexivity.
Qed.

Lemma stats_traced_cases (l : list (Earthquake num)) :
  (l = [] /\ fst (stats_traced l) = ReturnEmpty)
  \/ (l <> [] /\ magnitudes l = [] /\ fst (stats_traced l) = ReturnNoMagnitude)
  \/ (magnitudes l <> [] /\ fst (stats_traced l) = ReturnAggregate).
Proof.
  destruct l as [|eq l].
  - left. split; reflexivity.
  - right. destruct (magnitudes (eq :: l)) as [|m ms] eqn:E.
    + left. split; [discriminate|]. split; [reflexivity|].
      rewrite stats_traced_no_magnitude; [reflexivity | discriminate | exact E].
    + right. split; [discriminate|].
      rewrite stats_traced_aggregate; [reflexivity|].
      rewrite E. discriminate.
Qed.

(** [significant] counts the events of the list that are significant in
    the sense of the specification, whichever return is taken. *)
Lemma stats_significant_count (l : list (Earthquake num)) :
  stats_significant (stats l) = length (filter (@spec_significant num N) l).
Proof.
  unfold stats.
  destruct (stats_traced_cases l) as [[-> _]|[(Hl & Hm & _)|(Hm & _)]].
  - reflexivity.
  - rewrite (stats_traced_no_magnitude Hl Hm). simpl.
    symmetry. rewrite filter_none; [reflexivity|].
    intros eq Hin. destruct (spec_significant eq) eqn:E; [|reflexivity].
    apply spec_significant_present in E.
    assert (Hlen : length (magnitudes l) = 0) by (rewrite Hm; reflexivity).
    rewrite magnitudes_length in Hlen.
    apply length_zero_iff_nil in Hlen.
    assert (Hf : In eq (filter (@magnitude_present num) l))
      by (apply filter_In; split; assumption).
    rewrite Hlen in Hf. contradiction.
  - rewrite (stats_traced_aggregate l Hm). simpl.
    f_equal. apply filter_pointwise. exact is_significant_spec.
Qed.

Lemma stats_total_length (l : list (Earthquake num)) :
  stats_total (stats l) = length l.
Proof.
  unfold stats.
  destruct (stats_traced_cases l) as [[-> _]|[(Hl & Hm & _)|(Hm & _)]].
  - reflexivity.
  - rewrite (stats_traced_no_magnitude Hl Hm). reflexivity.
  - rewrite (stats_traced_aggregate l Hm). reflexivity.
Qed.

End ComponentFacts.

(** ** The order of binary64 values *)

(** The comparisons of the primitive floats are specified by [SFcompare];
    the facts below are read off its definition, NaN included. *)
Section DoubleOrder.

Ltac sf_compare :=
  repeat match goal with
  | |- context [Z.compare ?x ?y] =>
      destruct (Z.compare_spec x y); subst
  | H : context [Z.compare ?x ?y] |- _ =>
      destruct (Z.compare_spec x y); subst
  | |- context [Pos.compare_cont Eq ?x ?y] =>
      change (Pos.compare_cont Eq x y) with (Pos.compare x y);
      destruct (Pos.compare_spec x y); subst
  | H : context [Pos.compare_cont Eq ?x ?y] |- _ =>
      change (Pos.compare_cont Eq x y) with (Pos.compare x y) in H;
      destruct (Pos.compare_spec x y); subst
  end;
  simpl in *; try discriminate; try reflexivity; try lia.

Lemma SFleb_trans (x y z : spec_float) :
  SFleb x y = true -> SFleb y z = true -> SFleb x z = true.
Proof.
  unfold SFleb, SFcompare.
  destruct x as [[]|[]| |[] mx ex], y as [[]|[]| |[] my ey],
           z as [[]|[]| |[] mz ez];
    simpl; try discriminate; try reflexivity; intros; sf_compare.
Qed.

Lemma SFleb_antisym (x y : spec_float) :
  SFleb x y = true -> SFleb y x = true -> SFeqb x y = true.
Proof.
  unfold SFleb, SFeqb, SFcompare.
  destruct x as [[]|[]| |[] mx ex], y as [[]|[]| |[] my ey];
    simpl; try discriminate; try reflexivity; intros; sf_compare.
Qed.

Lemma SFeqb_SFleb (x y : spec_float) :
  SFeqb x y = true -> SFleb x y = true /\ SFleb y x = true.
Proof.
  unfold SFleb, SFeqb, SFcompare.
  destruct x as [[]|[]| |[] mx ex], y as [[]|[]| |[] my ey];
    simpl; try discriminate; try (split; reflexivity); intros; split; sf_compare.
Qed.

Lemma SFltb_not_SFleb (x y : spec_float) :
  SFltb y x = true -> SFleb x y = false.
Proof.
  unfold SFleb, SFltb, SFcompare.
  destruct x as [[]|[]| |[] mx ex], y as [[]|[]| |[] my ey];
    simpl; try discriminate; try reflexivity; intros; sf_compare.
Qed.

Lemma leb_trans (x y z : float) :
  (x <=? y)%float = true -> (y <=? z)%float = true -> (x <=? z)%float = true.
Proof. rewrite !FloatAxioms.leb_spec. apply SFleb_trans. Qed.

Lemma leb_antisym (x y : float) :
  (x <=? y)%float = true -> (y <=? x)%float = true -> (x =? y)%float = true.
Proof. rewrite !FloatAxioms.leb_spec, FloatAxioms.eqb_spec. apply SFleb_antisym. Qed.

Lemma eqb_leb (x y : float) :
  (x =? y)%float = true -> (x <=? y)%float = true /\ (y <=? x)%float = true.
Proof. rewrite !FloatAxioms.leb_spec, FloatAxioms.eqb_spec. apply SFeqb_SFleb. Qed.

Lemma ltb_not_leb (x y : float) :
  (y <? x)%float = true -> (x <=? y)%float = false.
Proof. rewrite FloatAxioms.leb_spec, FloatAxioms.ltb_spec. apply SFltb_not_SFleb. Qed.

(** When the bounds are crossed no number lies between them. *)
Lemma crossed_bounds_exclude (min max m : float) :
  (max <? min)%float = true ->
  (min <=? m)%float && (m <=? max)%float = false.
Proof.
  intros Hc.
  destruct (min <=? m)%float eqn:H1; [|reflexivity].
  destruct (m <=? max)%float eqn:H2; [|reflexivity].
  rewrite <- (ltb_not_leb Hc). symmetry.
  exact (leb_trans H1 H2).
Qed.

End DoubleOrder.

(** ** The Filter Engine *)

(** C1: for every event collection and every pair of bounds, the filter
    keeps an event if and only if its magnitude is present (neither [null]
    nor [undefined]) and [min <= magnitude <= max]: the output is the input
    filtered by that rule; an event whose magnitude is absent is excluded
    whatever the bounds; when [min == max] exactly the events whose
    magnitude equals that value pass. *)
Theorem filter_includes_iff_in_range
    (d : EarthquakeResponse float) (filters : FilterState float)
    (eq : Earthquake float) :
  filteredEarthquakes (Some d) filters
  = filter (spec_included (minMagnitude filters) (maxMagnitude filters)) (features d)
  /\ (In eq (filteredEarthquakes (Some d) filters) <->
      In eq (features d)
      /\ exists m, mag (properties eq) = JsNum m
                   /\ (minMagnitude filters <=? m)%float = true
                   /\ (m <=? maxMagnitude filters)%float = true)
  /\ (mag (properties eq) = JsNull \/ mag (properties eq) = JsUndefined ->
      ~ In eq (filteredEarthquakes (Some d) filters))
  /\ ((minMagnitude filters =? maxMagnitude filters)%float = true ->
      (In eq (filteredEarthquakes (Some d) filters) <->
       In eq (features d)
       /\ exists m, mag (properties eq) = JsNum m
                    /\ (m =? minMagnitude filters)%float = true)).
Proof.
  assert (Hin : In eq (filteredEarthquakes (Some d) filters) <->
                In eq (features d)
                /\ exists m, mag (properties eq) = JsNum m
                     /\ (minMagnitude filters <=? m)%float = true
                     /\ (m <=? maxMagnitude filters)%float = true).
  { simpl. rewrite filter_In, in_magnitude_range_spec.
    rewrite (spec_included_true (N := Double.number)). reflexivity. }
  split; [|split; [exact Hin|split]].
  - simpl. apply filter_pointwise. intros x. apply in_magnitude_range_spec.
  - intros Habs Hi. apply Hin in Hi. destruct Hi as (_ & m & Hm & _).
    destruct Habs as [Habs|Habs]; rewrite Habs in Hm; discriminate.
  - intros Heq. rewrite Hin.
    destruct (eqb_leb Heq) as [Hle Hge].
    split; intros (Hf & m & Hm & H); (split; [exact Hf|]); exists m;
      (split; [exact Hm|]).
    + destruct H as [H1 H2].
      apply leb_antisym; [|exact H1].
      exact (leb_trans H2 Hge).
    + destruct (eqb_leb H) as [H1 H2]. split; [exact H2|].
      exact (leb_trans H1 Hle).
Qed.

(** The rule at the events of the specification's scenario: event 1
    (magnitude 6.2) passes the default bounds, event 2 (magnitude [null])
    does not, and event 4 (magnitude 5.0) passes the bounds 5.0 and 5.0. *)
Lemma filter_includes_iff_in_range_witness :
  In Samples.quake1 (filteredEarthquakes (Some Samples.scenario) initial_filters)
  /\ ~ In Samples.quake2 (filteredEarthquakes (Some Samples.scenario) initial_filters)
  /\ In Samples.quake4 (filteredEarthquakes (Some Samples.scenario) Samples.exactly_5).
Proof.
  split; [|split].
  - apply (proj1 (proj2 (filter_includes_iff_in_range
                           Samples.scenario initial_filters Samples.quake1))).
    split; [left; reflexivity|].
    exists 6.2%float. repeat split; reflexivity.
  - apply (proj1 (proj2 (proj2 (filter_includes_iff_in_range
                           Samples.scenario initial_filters Samples.quake2)))).
    left. reflexivity.
  - apply (proj2 (proj2 (proj2 (filter_includes_iff_in_range
                           Samples.scenario Samples.exactly_5 Samples.quake4)))).
    + reflexivity.
    + split; [right; right; right; left; reflexivity|].
      exists 5.0%float. split; reflexivity.
Defined.

(** C5: for every event collection and pair of bounds the output of the
    filter is a subsequence of the input (the relative order is kept, nothing
    is sorted again), it is no longer than the input, each of its elements
    occurs in the input, and the empty input gives the empty output. *)
Theorem filter_output_is_subsequence
    (d : EarthquakeResponse float) (filters : FilterState float) :
  Subsequence (filteredEarthquakes (Some d) filters) (features d)
  /\ length (filteredEarthquakes (Some d) filters) <= length (features d)
  /\ (forall eq, In eq (filteredEarthquakes (Some d) filters) -> In eq (features d))
  /\ filteredEarthquakes (Some {| features := [] |}) filters = []
  /\ filteredEarthquakes None filters = [].
Proof.
  assert (H : Subsequence (filteredEarthquakes (Some d) filters) (features d))
    by apply filter_Subsequence.
  split; [exact H|]. split; [exact (Subsequence_length H)|].
  split; [exact (Subsequence_In H)|]. split; reflexivity.
Qed.

(** In the scenario event 4 is in the output and therefore in the input. *)
Lemma filter_output_is_subsequence_witness :
  In Samples.quake4 (features Samples.scenario).
Proof.
  apply (proj1 (proj2 (proj2 (filter_output_is_subsequence
                                Samples.scenario Samples.from_5_to_10)))).
  simpl. right. left. reflexivity.
Defined.

(** C6: the filter is idempotent: filtering its own output with the same
    bounds returns that output. *)
Theorem filter_idempotent_same_bounds
    (data : option (EarthquakeResponse float)) (filters : FilterState float) :
  filteredEarthquakes
    (Some {| features := filteredEarthquakes data filters |}) filters
  = filteredEarthquakes data filters.
Proof.
  destruct data as [d|]; simpl.
  - apply filter_idempotent.
  - reflexivity.
Qed.

(** ** The Aggregator *)

(** C2: for the empty subset every member of the statistics is zero, and it
    is the first return that produces them: the quotient of line 149 is not
    evaluated. *)
Theorem stats_of_empty_subset :
  stats (@nil (Earthquake float))
  = {| stats_total := 0;
       stats_avgMagnitude := 0%float;
       stats_maxMagnitude := 0%float;
       stats_significant := 0 |}
  /\ fst (stats_traced (@nil (Earthquake float))) = ReturnEmpty.
Proof.
  split; reflexivity.
Qed.

(** C3: for every subset, [significant] is the number of its events whose
    magnitude is present and at least 5.0, and it is at most [total], the
    number of events of the subset. *)
Theorem significant_counts_magnitudes_from_5 (subset : list (Earthquake float)) :
  stats_significant (stats subset)
  = length (filter (fun eq => match mag (properties eq) with
                              | JsNum m => (5.0 <=? m)%float
                              | _ => false
                              end) subset)
  /\ stats_total (stats subset) = length subset
  /\ stats_significant (stats subset) <= stats_total (stats subset).
Proof.
  assert (H : stats_significant (stats subset)
              = length (filter (@spec_significant float Double.number) subset))
    by apply stats_significant_count.
  split; [exact H|]. split; [apply stats_total_length|].
  rewrite H, stats_total_length.
  apply Subsequence_length, filter_Subsequence.
Qed.

(** The two filter scenarios of section 8 of the specification. *)
Example scenario_default_bounds :
  map (@id float) (filteredEarthquakes (Some Samples.scenario) initial_filters)
  = ["1"; "3"; "4"]%string
  /\ stats (filteredEarthquakes (Some Samples.scenario) initial_filters)
     = {| stats_total := 3;
          stats_avgMagnitude := ((0 + 6.2 + 4.8 + 5.0) / 3)%float;
          stats_maxMagnitude := 6.2%float;
          stats_significant := 2 |}.
Proof.
  split; reflexivity.
Qed.

Example scenario_from_5_to_10 :
  map (@id float) (filteredEarthquakes (Some Samples.scenario) Samples.from_5_to_10)
  = ["1"; "4"]%string
  /\ stats (filteredEarthquakes (Some Samples.scenario) Samples.from_5_to_10)
     = {| stats_total := 2;
          stats_avgMagnitude := 5.6%float;
          stats_maxMagnitude := 6.2%float;
          stats_significant := 2 |}.
Proof.
  split; reflexivity.
Qed.

(** C8: every event of an output of the filter has a present magnitude, so
    on such an output [stats] never takes the return of line 139 (a
    non-empty list without any present magnitude); that return is taken
    exactly on the non-empty lists none of whose events has a present
    magnitude, and there it gives [total] the length of the list and zero
    for the three other members. *)
Theorem no_magnitude_return_unreachable_after_filter
    (data : option (EarthquakeResponse float)) (filters : FilterState float)
    (subset : list (Earthquake float)) :
  (forall eq, In eq (filteredEarthquakes data filters) ->
              exists m, mag (properties eq) = JsNum m)
  /\ fst (stats_traced (filteredEarthquakes data filters)) <> ReturnNoMagnitude
  /\ (fst (stats_traced subset) = ReturnNoMagnitude <->
      subset <> [] /\ forall eq, In eq subset -> magnitude_present eq = false)
  /\ (fst (stats_traced subset) = ReturnNoMagnitude ->
      stats subset
      = {| stats_total := length subset;
           stats_avgMagnitude := 0%float;
           stats_maxMagnitude := 0%float;
           stats_significant := 0 |}).
Proof.
  split; [|split; [|split]].
  - intros eq Hin. apply filteredEarthquakes_present in Hin.
    unfold magnitude_present in Hin.
    destruct (mag (properties eq)) as [| |m]; try discriminate.
    exists m. reflexivity.
  - intros Hret.
    destruct (stats_traced_cases (filteredEarthquakes data filters))
      as [[_ H]|[(Hl & Hm & _)|(_ & H)]]; try congruence.
    apply Hl, length_zero_iff_nil.
    rewrite <- (magnitudes_all_present (filteredEarthquakes data filters)).
    + rewrite Hm. reflexivity.
    + intros eq. apply filteredEarthquakes_present.
  - split.
    + intros Hret.
      destruct (stats_traced_cases subset)
        as [[_ H]|[(Hl & Hm & _)|(_ & H)]]; try congruence.
      split; [exact Hl|]. intros eq Hin.
      destruct (magnitude_present eq) eqn:E; [|reflexivity].
      assert (Hf : In eq (filter (@magnitude_present float) subset))
        by (apply filter_In; split; assumption).
      assert (Hlen : length (filter (@magnitude_present float) subset) = 0)
        by (rewrite <- magnitudes_length, Hm; reflexivity).
      apply length_zero_iff_nil in Hlen. rewrite Hlen in Hf. contradiction.
    + intros [Hl Hnone].
      rewrite (stats_traced_no_magnitude Hl (magnitudes_none_present subset Hnone)).
      reflexivity.
  - intros Hret. unfold stats.
    destruct (stats_traced_cases subset)
      as [[_ H]|[(Hl & Hm & _)|(_ & H)]]; try congruence.
    rewrite (stats_traced_no_magnitude Hl Hm). reflexivity.
Qed.

(** A list that does take the return of line 139: one event whose magnitude
    is [null] and one whose [mag] member is missing. *)
Lemma no_magnitude_return_unreachable_after_filter_witness :
  stats [Samples.quake2; Samples.quake_no_mag]
  = {| stats_total := 2;
       stats_avgMagnitude := 0%float;
       stats_maxMagnitude := 0%float;
       stats_significant := 0 |}.
Proof.
  apply (proj2 (proj2 (proj2 (no_magnitude_return_unreachable_after_filter
                                None initial_filters
                                [Samples.quake2; Samples.quake_no_mag])))).
  reflexivity.
Defined.

(** ** The filter controls *)

Section FilterControls.

Context {num : Type} {N : JsNumber num}.

Lemma setFilters_timeframe_invariant (filters : FilterState num) (tf : TimeFrame) :
  FilterState_invariant (setFilters filters (ClickTimeframe tf))
  = FilterState_invariant filters.
Proof. reflexivity. Qed.

Lemma setFilters_in_slider_range (filters : FilterState num) (a : FilterAction num) :
  action_allowed a = true ->
  bounds_in_slider_range filters = true ->
  bounds_in_slider_range (setFilters filters a) = true.
Proof.
  unfold bounds_in_slider_range.
  destruct a as [tf|value|value]; simpl; intros Ha Hb.
  - exact Hb.
  - apply andb_true_iff in Hb. rewrite Ha. apply Hb.
  - apply andb_true_iff in Hb. rewrite Ha, andb_true_r. apply Hb.
Qed.

Lemma run_actions_in_slider_range (actions : list (FilterAction num)) :
  forall filters,
    forallb action_allowed actions = true ->
    bounds_in_slider_range filters = true ->
    bounds_in_slider_range (run_actions filters actions) = true.
Proof.
  unfold run_actions.
  induction actions as [|a actions IH]; simpl; intros filters Ha Hb.
  - exact Hb.
  - apply andb_true_iff in Ha. destruct Ha as [Ha Hrest].
    apply IH; [exact Hrest|]. apply setFilters_in_slider_range; assumption.
Qed.

(** A minimum slider update keeps the invariant exactly when the new
    minimum does not pass the maximum; likewise for the maximum slider. *)
Lemma slide_min_invariant (filters : FilterState num) (value : num) :
  FilterState_invariant filters = true ->
  slider_value value = true ->
  FilterState_invariant (setFilters filters (SlideMinMagnitude value))
  = num_leb value (maxMagnitude filters).
Proof.
  unfold FilterState_invariant, slider_value. simpl. intros Hi Hv.
  apply andb_true_iff in Hi. destruct Hi as [_ Hmax].
  apply andb_true_iff in Hv. destruct Hv as [H0 _].
  rewrite H0, Hmax, andb_true_r. reflexivity.
Qed.

Lemma slide_max_invariant (filters : FilterState num) (value : num) :
  FilterState_invariant filters = true ->
  slider_value value = true ->
  FilterState_invariant (setFilters filters (SlideMaxMagnitude value))
  = num_leb (minMagnitude filters) value.
Proof.
  unfold FilterState_invariant, slider_value. simpl. intros Hi Hv.
  apply andb_true_iff in Hi. destruct Hi as [Hi _].
  apply andb_true_iff in Hi. destruct Hi as [Hmin _].
  apply andb_true_iff in Hv. destruct Hv as [_ H10].
  rewrite Hmin, H10, andb_true_r. reflexivity.
Qed.

End FilterControls.

(** C7, as stated, fails: from the initial state the minimum slider is
    moved to 5, which keeps [0 <= min <= max <= 10], and then the maximum
    slider is moved to 3; both values are in the range of the sliders, and
    the state reached has [min = 5 > 3 = max]. *)
Lemma slider_update_breaks_invariant :
  FilterState_invariant (@initial_filters float _) = true
  /\ forallb action_allowed Samples.crossing_sliders = true
  /\ FilterState_invariant (setFilters initial_filters (SlideMinMagnitude 5%float)) = true
  /\ run_actions initial_filters Samples.crossing_sliders
     = setFilters (setFilters initial_filters (SlideMinMagnitude 5%float))
                  (SlideMaxMagnitude 3%float)
  /\ FilterState_invariant (run_actions initial_filters Samples.crossing_sliders) = false.
Proof.
  repeat (split; [reflexivity|]). reflexivity.
Qed.

(** C7, amended: the invariant [0 <= min <= max <= 10] holds in the initial
    state and is preserved by every timeframe change; a slider update with a
    value of the slider's range [0, 10] keeps each bound within [0, 10] (so
    does every sequence of such actions from the initial state), and it
    keeps [min <= max] exactly when the new value does not cross the other
    bound, which the sliders do not enforce. *)
Theorem filter_bounds_stay_in_slider_range :
  FilterState_invariant (@initial_filters float _) = true
  /\ (forall (filters : FilterState float) tf,
        FilterState_invariant filters = true ->
        FilterState_invariant (setFilters filters (ClickTimeframe tf)) = true)
  /\ (forall (filters : FilterState float) a,
        action_allowed a = true ->
        bounds_in_slider_range filters = true ->
        bounds_in_slider_range (setFilters filters a) = true)
  /\ (forall actions : list (FilterAction float),
        forallb action_allowed actions = true ->
        bounds_in_slider_range (run_actions initial_filters actions) = true)
  /\ (forall (filters : FilterState float) value,
        FilterState_invariant filters = true ->
        slider_value value = true ->
        FilterState_invariant (setFilters filters (SlideMinMagnitude value))
        = (value <=? maxMagnitude filters)%float
        /\ FilterState_invariant (setFilters filters (SlideMaxMagnitude value))
           = (minMagnitude filters <=? value)%float).
Proof.
  split; [reflexivity|]. split; [|split; [|split]].
  - intros filters tf H. rewrite setFilters_timeframe_invariant. exact H.
  - intros filters a. apply setFilters_in_slider_range.
  - intros actions Ha. apply run_actions_in_slider_range; [exact Ha|reflexivity].
  - intros filters value Hi Hv. split.
    + apply (slide_min_invariant filters value Hi Hv).
    + apply (slide_max_invariant filters value Hi Hv).
Qed.

(** After the two slider moves above both bounds are still within [0, 10]. *)
Lemma filter_bounds_stay_in_slider_range_witness :
  bounds_in_slider_range (run_actions initial_filters Samples.crossing_sliders) = true
  /\ FilterState_invariant
       (setFilters (@initial_filters float _) (ClickTimeframe week)) = true.
Proof.
  split.
  - apply (proj1 (proj2 (proj2 (proj2 filter_bounds_stay_in_slider_range)))).
    reflexivity.
  - apply (proj1 (proj2 filter_bounds_stay_in_slider_range)).
    reflexivity.
Defined.

(** C10: the controls permit a state with [minMagnitude > maxMagnitude]
    (a sequence of slider values of the range [0, 10] reaches one from the
    initial state), and in every such state the filter returns the empty
    subset for every event collection, and the statistics derived from it
    are all zero. *)
Theorem crossed_bounds_give_empty_subset :
  (exists actions : list (FilterAction float),
      forallb action_allowed actions = true
      /\ (maxMagnitude (run_actions initial_filters actions)
          <? minMagnitude (run_actions initial_filters actions))%float = true)
  /\ (forall (data : option (EarthquakeResponse float)) (filters : FilterState float),
        (maxMagnitude filters <? minMagnitude filters)%float = true ->
        filteredEarthquakes data filters = []
        /\ stats (filteredEarthquakes data filters)
           = {| stats_total := 0;
                stats_avgMagnitude := 0%float;
                stats_maxMagnitude := 0%float;
                stats_significant := 0 |}).
Proof.
  split.
  - exists Samples.crossing_sliders. split; reflexivity.
  - intros data filters Hc.
    assert (He : filteredEarthquakes data filters = []).
    { destruct data as [d|]; [|reflexivity]. simpl.
      apply filter_none. intros eq _.
      rewrite in_magnitude_range_spec. unfold spec_included.
      destruct (mag (properties eq)) as [| |m]; try reflexivity.
      apply (crossed_bounds_exclude _ Hc). }
    split; [exact He|]. rewrite He. reflexivity.
Qed.

(** The scenario's events under the bounds left by the two slider moves. *)
Lemma crossed_bounds_give_empty_subset_witness :
  filteredEarthquakes (Some Samples.scenario)
    (run_actions initial_filters Samples.crossing_sliders) = []
  /\ stats (filteredEarthquakes (Some Samples.scenario)
              (run_actions initial_filters Samples.crossing_sliders))
     = {| stats_total := 0;
          stats_avgMagnitude := 0%float;
          stats_maxMagnitude := 0%float;
          stats_significant := 0 |}.
Proof.
  apply (proj2 crossed_bounds_give_empty_subset).
  reflexivity.
Defined.

(** ** A failed refresh *)

Section PageFacts.

Context {num : Type} {N : JsNumber num}.

(** The render throws exactly on a truthy value without [features]. *)
Lemma page_view_thrown (p : Page num) :
  page_view p = None <-> feed_data (page_feed p) = Some NoFeatures.
Proof.
  unfold page_view.
  destruct (feed_data (page_feed p)) as [[d| |]|]; split; intros H;
    try reflexivity; discriminate H.
Qed.

Lemma page_step_rendered (p : Page num) (ev : PageEvent num) :
  page_view p <> None -> page_step p ev = page_update p ev.
Proof.
  unfold page_step. destruct (page_view p); [reflexivity | contradiction].
Qed.

(** The state behind [useSWR] is always that of the key of the current
    filters. *)
Lemma page_step_key (p : Page num) (ev : PageEvent num) :
  feed_key (page_feed p) = feed_url (page_filters p) ->
  feed_key (page_feed (page_step p ev)) = feed_url (page_filters (page_step p ev)).
Proof.
  intros Hk. unfold page_step. destruct (page_view p); [|exact Hk].
  destruct ev as [a|key o]; simpl.
  - unfold swr_key_change.
    destruct (String.eqb_spec (feed_url (setFilters (page_filters p) a))
                              (feed_key (page_feed p))) as [E|E].
    + symmetry. exact E.
    + reflexivity.
  - unfold swr_settle.
    destruct (String.eqb key (feed_key (page_feed p))); [|exact Hk].
    destruct o; exact Hk.
Qed.

Lemma run_page_key (events : list (PageEvent num)) :
  forall p : Page num,
    feed_key (page_feed p) = feed_url (page_filters p) ->
    feed_key (page_feed (run_page p events))
    = feed_url (page_filters (run_page p events)).
Proof.
  unfold run_page. induction events as [|ev events IH]; simpl; intros p Hk.
  - exact Hk.
  - apply IH, page_step_key, Hk.
Qed.

(** A rejected request for the active key sets the error and keeps the
    rest. *)
Lemma page_step_rejected (p : Page num) (e : string) :
  page_view p <> None ->
  page_step p (FetchSettled (feed_key (page_feed p)) (FetchRejected e))
  = {| page_filters := page_filters p;
       page_feed := {| feed_key := feed_key (page_feed p);
                       feed_data := feed_data (page_feed p);
                       feed_error := Some e;
                       feed_isLoading := false |} |}.
Proof.
  intros Hv. rewrite (@page_step_rendered p _ Hv).
  simpl. unfold swr_settle. rewrite String.eqb_refl. reflexivity.
Qed.

(** Rejected requests, however many, change neither the filters, nor the
    key, nor the snapshot. *)
Lemma run_page_rejections (errors : list string) :
  forall p : Page num,
    page_view p <> None ->
    page_filters (run_page p (rejections (feed_key (page_feed p)) errors))
    = page_filters p
    /\ feed_key (page_feed (run_page p (rejections (feed_key (page_feed p)) errors)))
       = feed_key (page_feed p)
    /\ feed_data (page_feed (run_page p (rejections (feed_key (page_feed p)) errors)))
       = feed_data (page_feed p).
Proof.
  unfold run_page, rejections.
  induction errors as [|e errors IH]; intros p Hv.
  - repeat split.
  - cbn [map fold_left]. rewrite (@page_step_rejected p e Hv).
    apply (IH {| page_filters := page_filters p;
                 page_feed := {| feed_key := feed_key (page_feed p);
                                 feed_data := feed_data (page_feed p);
                                 feed_error := Some e;
                                 feed_isLoading := false |} |}).
    rewrite page_view_thrown. simpl. rewrite <- page_view_thrown. exact Hv.
Qed.

(** After rejected requests, the last of them with the error [e]. *)
Lemma run_page_rejections_last (errors : list string) (e : string) (p : Page num) :
  page_view p <> None ->
  run_page p (rejections (feed_key (page_feed p)) (errors ++ [e]))
  = {| page_filters := page_filters p;
       page_feed := {| feed_key := feed_key (page_feed p);
                       feed_data := feed_data (page_feed p);
                       feed_error := Some e;
                       feed_isLoading := false |} |}.
Proof.
  intros Hv.
  destruct (@run_page_rejections errors p Hv) as (Hf & Hk & Hd).
  unfold run_page, rejections in *.
  rewrite map_app, fold_left_app. cbn [map fold_left].
  rewrite <- Hk at 1. rewrite page_step_rejected.
  - rewrite Hf, Hk, Hd. reflexivity.
  - rewrite page_view_thrown, Hd, <- page_view_thrown. exact Hv.
Qed.

(** A slider does not change the key, hence not the state of the feed. *)
Lemma page_step_slider (p : Page num) (a : FilterAction num) :
  page_view p <> None ->
  feed_key (page_feed p) = feed_url (page_filters p) ->
  (forall tf, a <> ClickTimeframe tf) ->
  page_step p (UserAction a)
  = {| page_filters := setFilters (page_filters p) a; page_feed := page_feed p |}.
Proof.
  intros Hv Hk Ha. rewrite (@page_step_rendered p _ Hv).
  simpl. unfold swr_key_change.
  assert (Hu : feed_url (setFilters (page_filters p) a) = feed_key (page_feed p)).
  { rewrite Hk. destruct a as [tf|v|v]; [|reflexivity|reflexivity].
    exfalso. exact (Ha tf eq_refl). }
  rewrite Hu, String.eqb_refl. reflexivity.
Qed.

End PageFacts.

(** C9, as stated, fails.  By design: once a refresh has failed, the
    statistics grid is replaced by the message "Failed to load earthquake
    data" (the [error] branch of lines 244-249), so the statistics that were
    displayed after the successful fetch are no longer displayed.  And one
    failure is fatal: a response with an error status and a JSON body
    without [features] is resolved by the fetcher (line 92 does not test
    [res.ok]), replaces the snapshot, and the next render throws at line
    285. *)
Lemma failed_refresh_hides_statistics :
  let key := feed_url (@initial_filters float _) in
  let ready :=
    page_step initial_page
      (FetchSettled key (fetcher (Json 200 (FeatureCollection Samples.scenario)))) in
  let failed :=
    page_step ready
      (FetchSettled key (fetcher (NetworkFailure "TypeError: Failed to fetch"))) in
  let bad_status :=
    page_step ready (FetchSettled key (fetcher (Json 503 NoFeatures))) in
  option_map (@statsPanel float) (page_view ready)
  = Some (StatsCards
            {| stats_total := 3;
               stats_avgMagnitude := ((0 + 6.2 + 4.8 + 5.0) / 3)%float;
               stats_maxMagnitude := 6.2%float;
               stats_significant := 2 |} "Past Day")
  /\ option_map (@statsPanel float) (page_view failed) = Some FailedToLoad
  /\ option_map (@statsPanel float) (page_view failed)
     <> option_map (@statsPanel float) (page_view ready)
  /\ page_view bad_status = None.
Proof.
  cbv zeta. split; [reflexivity|]. split; [reflexivity|].
  split; [|reflexivity].
  intros H. discriminate H.
Qed.

(** C9, amended: on a page that is rendered, after a successful fetch,
    failed refreshes (requests that are rejected, one or several in a row)
    leave the snapshot and the filters in place, so the filtered subset and
    the statistics derived from it are unchanged, and the list of events and
    the line "Showing n of m" are displayed as before, while the error
    message is displayed in the place of the statistics grid, until a later
    fetch succeeds and the grid is displayed again.  No rejected request is
    fatal: the page is rendered after each of them, and the application
    remains interactive: after a move of either slider the list is derived
    again from the retained snapshot. *)
Theorem failed_refresh_keeps_snapshot
    (history : list (PageEvent float)) (d d' : EarthquakeResponse float)
    (errors : list string) (e : string) (value : float) :
  page_view (run_page initial_page history) <> None ->
  let before := run_page initial_page history in
  let filters := page_filters before in
  let key := feed_url filters in
  let label := fst (timeframeConfig (timeframe filters)) in
  let ready := page_step before (FetchSettled key (FetchResolved (FeatureCollection d))) in
  let failed := run_page ready (rejections key (errors ++ [e])) in
  let later := page_step failed (FetchSettled key (FetchResolved (FeatureCollection d'))) in
  let listed (f : FilterState float) (x : EarthquakeResponse float) :=
    if length (filteredEarthquakes (Some x) f) =? 0 then NoEarthquakesFound
    else EarthquakeCards (filteredEarthquakes (Some x) f) in
  (page_filters failed = filters
   /\ data_with_features (page_feed failed) = Some d
   /\ filteredEarthquakes (data_with_features (page_feed failed)) (page_filters failed)
      = filteredEarthquakes (data_with_features (page_feed ready)) (page_filters ready)
   /\ stats (filteredEarthquakes (data_with_features (page_feed failed))
                                 (page_filters failed))
      = stats (filteredEarthquakes (data_with_features (page_feed ready))
                                   (page_filters ready)))
  /\ (option_map (@statsPanel float) (page_view ready)
      = Some (StatsCards (stats (filteredEarthquakes (Some d) filters)) label)
      /\ option_map (@listPanel float) (page_view ready) = Some (listed filters d)
      /\ option_map (@showing float) (page_view ready)
         = Some (Some (length (filteredEarthquakes (Some d) filters),
                       length (features d))))
  /\ (option_map (@statsPanel float) (page_view failed) = Some FailedToLoad
      /\ option_map (@listPanel float) (page_view failed)
         = option_map (@listPanel float) (page_view ready)
      /\ option_map (@showing float) (page_view failed)
         = option_map (@showing float) (page_view ready))
  /\ (option_map (@listPanel float)
        (page_view (page_step failed (UserAction (SlideMinMagnitude value))))
      = Some (listed (setFilters filters (SlideMinMagnitude value)) d)
      /\ option_map (@listPanel float)
           (page_view (page_step failed (UserAction (SlideMaxMagnitude value))))
         = Some (listed (setFilters filters (SlideMaxMagnitude value)) d))
  /\ option_map (@statsPanel float) (page_view later)
     = Some (StatsCards (stats (filteredEarthquakes (Some d') filters)) label).
Proof.
  intros Hv. cbv zeta.
  set (before := run_page initial_page history) in *.
  assert (Hk : feed_key (page_feed before) = feed_url (page_filters before))
    by (apply run_page_key; reflexivity).
  rewrite <- Hk.
  assert (Hready :
    page_step before
      (FetchSettled (feed_key (page_feed before)) (FetchResolved (FeatureCollection d)))
    = {| page_filters := page_filters before;
         page_feed := {| feed_key := feed_key (page_feed before);
                         feed_data := Some (FeatureCollection d);
                         feed_error := None;
                         feed_isLoading := false |} |}).
  { rewrite (@page_step_rendered _ _ before _ Hv).
    simpl. unfold swr_settle. rewrite String.eqb_refl. reflexivity. }
  rewrite Hready.
  set (ready := {| page_filters := page_filters before;
                   page_feed := {| feed_key := feed_key (page_feed before);
                                   feed_data := Some (FeatureCollection d);
                                   feed_error := None;
                                   feed_isLoading := false |} |}).
  assert (Hvr : page_view ready <> None) by discriminate.
  assert (Hfailed :
    run_page ready (rejections (feed_key (page_feed before)) (errors ++ [e]))
    = {| page_filters := page_filters before;
         page_feed := {| feed_key := feed_key (page_feed before);
                         feed_data := Some (FeatureCollection d);
                         feed_error := Some e;
                         feed_isLoading := false |} |})
    by exact (@run_page_rejections_last _ _ errors e ready Hvr).
  rewrite Hfailed.
  set (failed := {| page_filters := page_filters before;
                    page_feed := {| feed_key := feed_key (page_feed before);
                                    feed_data := Some (FeatureCollection d);
                                    feed_error := Some e;
                                    feed_isLoading := false |} |}).
  assert (Hvf : page_view failed <> None) by discriminate.
  assert (Hfk : feed_key (page_feed failed) = feed_url (page_filters failed))
    by exact Hk.
  split; [repeat split|]. split; [repeat split|]. split; [repeat split|].
  split; [split|].
  - rewrite (@page_step_slider _ _ failed _ Hvf Hfk); [reflexivity | discriminate].
  - rewrite (@page_step_slider _ _ failed _ Hvf Hfk); [reflexivity | discriminate].
  - rewrite (@page_step_rendered _ _ failed _ Hvf).
    simpl. unfold swr_settle. simpl. rewrite String.eqb_refl. reflexivity.
Qed.

(** After a click on "Past Week", a successful fetch of the scenario and two
    rejected refreshes, the error message is in the place of the grid. *)
Lemma failed_refresh_keeps_snapshot_witness :
  option_map (@statsPanel float)
    (page_view
       (run_page
          (page_step (run_page initial_page [UserAction (ClickTimeframe week)])
             (FetchSettled
                (feed_url (page_filters
                             (run_page initial_page [UserAction (ClickTimeframe week)])))
                (FetchResolved (FeatureCollection Samples.scenario))))
          (rejections
             (feed_url (page_filters
                          (run_page initial_page [UserAction (ClickTimeframe week)])))
             (["TypeError: Failed to fetch"%string]
              ++ ["SyntaxError: Unexpected token"%string]))))
  = Some FailedToLoad.
Proof.
  apply (proj1 (proj1 (proj2 (proj2
           (@failed_refresh_keeps_snapshot
              [UserAction (ClickTimeframe week)] Samples.scenario Samples.scenario
              ["TypeError: Failed to fetch"%string]
              "SyntaxError: Unexpected token"%string 5%float
              ltac:(discriminate)))))).
Defined.

(** ** The average magnitude *)

(** The same derivation without rounding: sums, quotients and comparisons
    of rationals. *)
Section ExactMean.

Local Open Scope Q_scope.

Lemma of_nat_succ (n : nat) : Exact.of_nat (S n) == Exact.of_nat n + 1.
Proof.
  unfold Exact.of_nat. rewrite Nat2Z.inj_succ, <- Z.add_1_r, inject_Z_plus.
  reflexivity.
Qed.

Lemma of_nat_pos (n : nat) : (0 < n)%nat -> 0 < Exact.of_nat n.
Proof.
  intros H. unfold Exact.of_nat.
  change 0 with (inject_Z 0). rewrite <- Zlt_Qlt. lia.
Qed.

(** The accumulator of [reduce] stays between [n] times the bounds. *)
Lemma sum_bounds (lo hi : Q) (ms : list Q) :
  (forall m, In m ms -> lo <= m /\ m <= hi) ->
  forall a,
    a + Exact.of_nat (length ms) * lo <= fold_left Qplus ms a
    /\ fold_left Qplus ms a <= a + Exact.of_nat (length ms) * hi.
Proof.
  induction ms as [|m ms IH]; intros H a.
  - change (Exact.of_nat (length [])) with 0. simpl. split; lra.
  - simpl fold_left. simpl length.
    destruct (H m (or_introl eq_refl)) as [Hlo Hhi].
    destruct (IH (fun x Hx => H x (or_intror Hx)) (a + m)) as [IH1 IH2].
    rewrite of_nat_succ. split; lra.
Qed.

Lemma fold_min_le (l : list Q) :
  forall a,
    fold_left (fun a b => if Qle_bool b a then b else a) l a <= a
    /\ forall m, In m l ->
         fold_left (fun a b => if Qle_bool b a then b else a) l a <= m.
Proof.
  induction l as [|z l IH]; intros a; simpl.
  - split; [lra | contradiction].
  - destruct (IH (if Qle_bool z a then z else a)) as [H1 H2].
    destruct (Qle_bool z a) eqn:E.
    + apply Qle_bool_iff in E. split; [lra|].
      intros m [->|Hm]; [exact H1 | exact (H2 m Hm)].
    + assert (~ z <= a) by (rewrite <- Qle_bool_iff, E; discriminate).
      split; [exact H1|].
      intros m [<-|Hm]; [lra | exact (H2 m Hm)].
Qed.

Lemma fold_max_ge (l : list Q) :
  forall a,
    a <= fold_left (fun a b => if Qle_bool a b then b else a) l a
    /\ forall m, In m l ->
         m <= fold_left (fun a b => if Qle_bool a b then b else a) l a.
Proof.
  induction l as [|z l IH]; intros a; simpl.
  - split; [lra | contradiction].
  - destruct (IH (if Qle_bool a z then z else a)) as [H1 H2].
    destruct (Qle_bool a z) eqn:E.
    + apply Qle_bool_iff in E. split; [lra|].
      intros m [<-|Hm]; [exact H1 | exact (H2 m Hm)].
    + assert (~ a <= z) by (rewrite <- Qle_bool_iff, E; discriminate).
      split; [exact H1|].
      intros m [<-|Hm]; [lra | exact (H2 m Hm)].
Qed.

Lemma list_min_le (d : Q) (ms : list Q) (m : Q) :
  In m ms -> Exact.list_min d ms <= m.
Proof.
  destruct ms as [|x ms]; [contradiction|]. simpl Exact.list_min.
  destruct (fold_min_le ms x) as [H1 H2].
  intros [<-|Hm]; [exact H1 | exact (H2 m Hm)].
Qed.

Lemma list_max_ge (d : Q) (ms : list Q) (m : Q) :
  In m ms -> m <= Exact.list_max d ms.
Proof.
  destruct ms as [|x ms]; [contradiction|]. simpl Exact.list_max.
  destruct (fold_max_ge ms x) as [H1 H2].
  intros [<-|Hm]; [exact H1 | exact (H2 m Hm)].
Qed.

Lemma mean_bounds (lo hi : Q) (ms : list Q) :
  ms <> [] ->
  (forall m, In m ms -> lo <= m /\ m <= hi) ->
  lo <= fold_left Qplus ms 0 / Exact.of_nat (length ms)
  /\ fold_left Qplus ms 0 / Exact.of_nat (length ms) <= hi.
Proof.
  intros Hne H.
  assert (Hn : 0 < Exact.of_nat (length ms)).
  { apply of_nat_pos. destruct ms; [contradiction | simpl; lia]. }
  destruct (@sum_bounds lo hi ms H 0) as [H1 H2].
  split.
  - apply Qle_shift_div_l; [exact Hn | lra].
  - apply Qle_shift_div_r; [exact Hn | lra].
Qed.

End ExactMean.

(** In binary64 arithmetic the aggregate return computes the quotient of
    the left-to-right sum of the magnitudes by their number, each operation
    rounded. *)
Lemma double_average_is_rounded_mean (subset : list (Earthquake float)) :
  subset <> [] ->
  (forall eq, In eq subset -> magnitude_present eq = true) ->
  stats_avgMagnitude (stats subset)
  = (fold_left PrimFloat.add (magnitudes subset) 0
     / Double.of_nat (length subset))%float.
Proof.
  intros Hne Hp.
  assert (Hlen : length (magnitudes subset) = length subset)
    by exact (magnitudes_all_present subset Hp).
  assert (Hm : magnitudes subset <> []).
  { intros E. rewrite E in Hlen. symmetry in Hlen.
    apply length_zero_iff_nil in Hlen. contradiction. }
  unfold stats. rewrite (stats_traced_aggregate subset Hm). simpl.
  rewrite Hlen. reflexivity.
Qed.

(** C4, as stated, fails in the arithmetic of the code: for three events of
    magnitude 0.1 the sum [0 + 0.1 + 0.1 + 0.1] is rounded to
    0.30000000000000004 and its quotient by 3 to 0.10000000000000002, which
    is greater than 0.1, the maximum (and the minimum) of the magnitudes and
    the [maxMagnitude] the same call computes. *)
Lemma double_average_exceeds_max :
  Samples.tremors <> []
  /\ filteredEarthquakes (Some {| features := Samples.tremors |}) initial_filters
     = Samples.tremors
  /\ magnitudes Samples.tremors = [0.1; 0.1; 0.1]%float
  /\ stats_avgMagnitude (stats Samples.tremors) = 0.10000000000000002%float
  /\ stats_maxMagnitude (stats Samples.tremors) = 0.1%float
  /\ (stats_avgMagnitude (stats Samples.tremors) <=? 0.1)%float = false
  /\ (0.1 <? stats_avgMagnitude (stats Samples.tremors))%float = true.
Proof.
  split; [discriminate|]. repeat (split; [reflexivity|]). reflexivity.
Qed.

(** C4, amended: for every non-empty subset all of whose events have a
    present magnitude, the average is the sum of the magnitudes divided by
    their number, and computed without rounding (over the rationals) it lies
    between the minimum and the maximum of the magnitudes, inclusive. *)
Theorem exact_average_between_min_and_max (subset : list (Earthquake Q)) :
  subset <> [] ->
  (forall eq, In eq subset -> magnitude_present eq = true) ->
  length (magnitudes subset) = length subset
  /\ stats_avgMagnitude (stats subset)
     = (fold_left Qplus (magnitudes subset) 0 / Exact.of_nat (length (magnitudes subset)))%Q
  /\ (Exact.list_min 0 (magnitudes subset) <= stats_avgMagnitude (stats subset))%Q
  /\ (stats_avgMagnitude (stats subset) <= Exact.list_max 0 (magnitudes subset))%Q.
Proof.
  intros Hne Hp.
  assert (Hlen : length (magnitudes subset) = length subset)
    by exact (magnitudes_all_present subset Hp).
  assert (Hm : magnitudes subset <> []).
  { intros E. rewrite E in Hlen. symmetry in Hlen.
    apply length_zero_iff_nil in Hlen. contradiction. }
  split; [exact Hlen|].
  unfold stats. rewrite (stats_traced_aggregate subset Hm). simpl snd.
  simpl stats_avgMagnitude. split; [reflexivity|].
  apply (@mean_bounds _ _ (magnitudes subset) Hm). intros m Hin. split.
  - apply list_min_le, Hin.
  - apply list_max_ge, Hin.
Qed.

(** The three events of the scenario that pass the default bounds, with
    magnitudes 6.2, 4.8 and 5: the exact average 16/3 lies between 4.8 and
    6.2. *)
Lemma exact_average_between_min_and_max_witness :
  (Exact.list_min 0 (magnitudes Samples.exact_subset)
   <= stats_avgMagnitude (stats Samples.exact_subset))%Q
  /\ (stats_avgMagnitude (stats Samples.exact_subset)
      <= Exact.list_max 0 (magnitudes Samples.exact_subset))%Q.
Proof.
  apply (proj2 (proj2 (exact_average_between_min_and_max
                         (subset := Samples.exact_subset)
                         ltac:(discriminate)
                         ltac:(intros eq [<-|[<-|[<-|[]]]]; reflexivity)))).
Defined.

(** * Further properties of the component *)

(** ** More on the order of binary64 values *)

Section DoubleTotalOrder.

Ltac sf_cases :=
  repeat match goal with
  | |- context [Z.compare ?x ?y] =>
      destruct (Z.compare_spec x y); subst
  | H : context [Z.compare ?x ?y] |- _ =>
      destruct (Z.compare_spec x y); subst
  | |- context [Pos.compare_cont Eq ?x ?y] =>
      change (Pos.compare_cont Eq x y) with (Pos.compare x y);
      destruct (Pos.compare_spec x y); subst
  | H : context [Pos.compare_cont Eq ?x ?y] |- _ =>
      change (Pos.compare_cont Eq x y) with (Pos.compare x y) in H;
      destruct (Pos.compare_spec x y); subst
  end;
  simpl in *; try discriminate; try reflexivity; try lia.

Lemma SFleb_not_nan (x y : spec_float) :
  SFleb x y = true -> SFleb x x = true /\ SFleb y y = true.
Proof.
  unfold SFleb, SFcompare.
  destruct x as [[]|[]| |[] mx ex], y as [[]|[]| |[] my ey];
    simpl; try discriminate; intros; split; sf_cases.
Qed.

Lemma SFltb_SFleb (x y : spec_float) : SFltb x y = true -> SFleb x y = true.
Proof.
  unfold SFleb, SFltb, SFcompare.
  destruct x as [[]|[]| |[] mx ex], y as [[]|[]| |[] my ey];
    simpl; try discriminate; try reflexivity; intros; sf_cases.
Qed.

Lemma SFleb_total (x y : spec_float) :
  SFleb x x = true -> SFleb y y = true -> SFleb x y = false -> SFltb y x = true.
Proof.
  unfold SFleb, SFltb, SFcompare.
  destruct x as [[]|[]| |[] mx ex], y as [[]|[]| |[] my ey];
    simpl; try discriminate; try reflexivity; intros; sf_cases.
Qed.

Lemma SFleb_neg_infinity (x : spec_float) :
  SFleb x (S754_infinity true) = true -> x = S754_infinity true.
Proof.
  unfold SFleb, SFcompare.
  destruct x as [[]|[]| |[] mx ex]; simpl; try discriminate; reflexivity.
Qed.

Lemma SFleb_from_neg_infinity (x : spec_float) :
  SFleb x x = true -> SFleb (S754_infinity true) x = true.
Proof.
  unfold SFleb, SFcompare.
  destruct x as [[]|[]| |[] mx ex]; simpl; try discriminate; reflexivity.
Qed.

(** [x] is not NaN exactly when [x <= x]. *)
Lemma is_nan_false_leb (x : float) :
  PrimFloat.is_nan x = false <-> (x <=? x)%float = true.
Proof.
  unfold PrimFloat.is_nan. rewrite negb_false_iff. split.
  - intros H. apply (eqb_leb H).
  - intros H. apply (leb_antisym H H).
Qed.

Lemma leb_not_nan (x y : float) :
  (x <=? y)%float = true ->
  PrimFloat.is_nan x = false /\ PrimFloat.is_nan y = false.
Proof.
  rewrite !is_nan_false_leb, !FloatAxioms.leb_spec. apply SFleb_not_nan.
Qed.

Lemma ltb_leb (x y : float) : (x <? y)%float = true -> (x <=? y)%float = true.
Proof. rewrite FloatAxioms.leb_spec, FloatAxioms.ltb_spec. apply SFltb_SFleb. Qed.

Lemma leb_total (x y : float) :
  PrimFloat.is_nan x = false -> PrimFloat.is_nan y = false ->
  (x <=? y)%float = false -> (y <? x)%float = true.
Proof.
  rewrite !is_nan_false_leb, !FloatAxioms.leb_spec, FloatAxioms.ltb_spec.
  apply SFleb_total.
Qed.

Lemma not_ltb_leb (x y : float) :
  PrimFloat.is_nan x = false -> PrimFloat.is_nan y = false ->
  (x <? y)%float = false -> (y <=? x)%float = true.
Proof.
  intros Hx Hy H. destruct (y <=? x)%float eqn:E; [reflexivity|].
  rewrite (leb_total Hy Hx E) in H. discriminate.
Qed.

Lemma leb_neg_infinity (x : float) :
  (x <=? PrimFloat.neg_infinity)%float = true -> x = PrimFloat.neg_infinity.
Proof.
  rewrite FloatAxioms.leb_spec. intros H.
  apply SFleb_neg_infinity in H. apply Prim2SF_inj. exact H.
Qed.

Lemma neg_infinity_leb (x : float) :
  PrimFloat.is_nan x = false -> (PrimFloat.neg_infinity <=? x)%float = true.
Proof.
  rewrite is_nan_false_leb, !FloatAxioms.leb_spec. apply SFleb_from_neg_infinity.
Qed.

(** One step of [Math.max] on two numbers returns one of them, at least as
    large as both. *)
Lemma max2_spec (a b : float) :
  PrimFloat.is_nan a = false -> PrimFloat.is_nan b = false ->
  (Double.max2 a b = a \/ Double.max2 a b = b)
  /\ (a <=? Double.max2 a b)%float = true
  /\ (b <=? Double.max2 a b)%float = true.
Proof.
  intros Ha Hb. unfold Double.max2. rewrite Ha, Hb. simpl.
  assert (Haa := proj1 (is_nan_false_leb a) Ha).
  assert (Hbb := proj1 (is_nan_false_leb b) Hb).
  destruct (a <? b)%float eqn:E1.
  - split; [right; reflexivity|]. split; [apply ltb_leb, E1 | exact Hbb].
  - destruct (b <? a)%float eqn:E2.
    + split; [left; reflexivity|]. split; [exact Haa | apply ltb_leb, E2].
    + assert (Hba := not_ltb_leb Ha Hb E1).
      assert (Hab := not_ltb_leb Hb Ha E2).
      destruct (PrimFloat.classify a);
        (split; [first [left; reflexivity | right; reflexivity]|]);
        split; assumption.
Qed.

Lemma max2_not_nan (a b : float) :
  PrimFloat.is_nan a = false -> PrimFloat.is_nan b = false ->
  PrimFloat.is_nan (Double.max2 a b) = false.
Proof.
  intros Ha Hb. destruct (max2_spec a b Ha Hb) as [[-> | ->] _]; assumption.
Qed.

Lemma fold_max2_spec (xs : list float) :
  forall acc,
    PrimFloat.is_nan acc = false ->
    (forall x, In x xs -> PrimFloat.is_nan x = false) ->
    (fold_left Double.max2 xs acc = acc \/ In (fold_left Double.max2 xs acc) xs)
    /\ (acc <=? fold_left Double.max2 xs acc)%float = true
    /\ (forall x, In x xs -> (x <=? fold_left Double.max2 xs acc)%float = true).
Proof.
  induction xs as [|b xs IH]; intros acc Hacc Hxs; simpl.
  - split; [left; reflexivity|]. split; [apply is_nan_false_leb, Hacc|].
    intros x [].
  - assert (Hb : PrimFloat.is_nan b = false) by (apply Hxs; left; reflexivity).
    destruct (max2_spec acc b Hacc Hb) as (Hsel & Hle1 & Hle2).
    destruct (IH (Double.max2 acc b) (max2_not_nan acc b Hacc Hb)
                 (fun x Hx => Hxs x (or_intror Hx))) as (Hr & Hler & Hall).
    split; [|split].
    + destruct Hr as [Hr|Hr].
      * rewrite Hr. destruct Hsel as [-> | ->]; [left; reflexivity | right; left; reflexivity].
      * right. right. exact Hr.
    + exact (leb_trans Hle1 Hler).
    + intros x [<-|Hx]; [exact (leb_trans Hle2 Hler) | exact (Hall x Hx)].
Qed.

(** [Math.max] of at least one number, none of them NaN, is one of the
    numbers and is at least as large as each. *)
Lemma Math_max_spec (xs : list float) :
  xs <> [] ->
  (forall x, In x xs -> PrimFloat.is_nan x = false) ->
  In (Double.max xs) xs
  /\ forall x, In x xs -> (x <=? Double.max xs)%float = true.
Proof.
  intros Hne Hxs. unfold Double.max.
  destruct (@fold_max2_spec xs PrimFloat.neg_infinity eq_refl Hxs) as (Hr & _ & Hall).
  split; [|exact Hall].
  destruct Hr as [Hr|Hr]; [|exact Hr].
  destruct xs as [|x xs]; [contradiction|].
  assert (Hx : x = PrimFloat.neg_infinity).
  { apply leb_neg_infinity. rewrite <- Hr. apply Hall. left. reflexivity. }
  rewrite Hr. left. exact Hx.
Qed.

End DoubleTotalOrder.

(** ** More on the Filter Engine *)

Section FilterFacts.

Variable A : Type.
Variables p q : A -> bool.
Hypothesis p_implies_q : forall x, p x = true -> q x = true.

Lemma filter_of_wider_filter (l : list A) : filter p (filter q l) = filter p l.
Proof.
  induction l as [|x l IH]; simpl.
  - reflexivity.
  - destruct (q x) eqn:Eq; simpl.
    + rewrite IH. reflexivity.
    + destruct (p x) eqn:Ep; [|exact IH].
      rewrite (p_implies_q Ep) in Eq. discriminate.
Qed.

End FilterFacts.

(** Narrowing the magnitude range never adds an event: with bounds inside
    the bounds of another setting the filter returns a subsequence of what
    it returns with the other setting, namely that output filtered again. *)
Theorem narrower_bounds_give_subsequence
    (d : EarthquakeResponse float) (wide narrow : FilterState float) :
  (minMagnitude wide <=? minMagnitude narrow)%float = true ->
  (maxMagnitude narrow <=? maxMagnitude wide)%float = true ->
  filteredEarthquakes (Some {| features := filteredEarthquakes (Some d) wide |}) narrow
  = filteredEarthquakes (Some d) narrow
  /\ Subsequence (filteredEarthquakes (Some d) narrow)
                 (filteredEarthquakes (Some d) wide).
Proof.
  intros Hmin Hmax.
  assert (H : filter (in_magnitude_range narrow)
                (filter (in_magnitude_range wide) (features d))
              = filter (in_magnitude_range narrow) (features d)).
  { apply filter_of_wider_filter. intros eq.
    rewrite !in_magnitude_range_spec.
    rewrite !(spec_included_true (N := Double.number)).
    intros (m & Hm & H1 & H2). exists m. split; [exact Hm|]. split.
    - exact (leb_trans Hmin H1).
    - exact (leb_trans H2 Hmax). }
  split; [exact H|]. simpl. rewrite <- H. apply filter_Subsequence.
Qed.

(** The scenario under the bounds 5 to 10 and under the default bounds. *)
Lemma narrower_bounds_give_subsequence_witness :
  Subsequence (filteredEarthquakes (Some Samples.scenario) Samples.from_5_to_10)
              (filteredEarthquakes (Some Samples.scenario) initial_filters).
Proof.
  apply (narrower_bounds_give_subsequence
           Samples.scenario initial_filters Samples.from_5_to_10);
    reflexivity.
Defined.

(** Whatever the positions the two sliders are moved to, an event whose
    magnitude is below 0 or above 10 is never in the filtered subset. *)
Theorem out_of_slider_range_never_listed
    (actions : list (FilterAction float)) (d : EarthquakeResponse float)
    (eq : Earthquake float) (m : float) :
  forallb action_allowed actions = true ->
  mag (properties eq) = JsNum m ->
  (m <? 0)%float = true \/ (10 <? m)%float = true ->
  ~ In eq (filteredEarthquakes (Some d) (run_actions initial_filters actions)).
Proof.
  intros Ha Hm Hout Hin.
  assert (Hb := run_actions_in_slider_range actions
                  (@initial_filters float _) Ha eq_refl).
  unfold bounds_in_slider_range, slider_value in Hb.
  apply andb_true_iff in Hb. destruct Hb as [Hb1 Hb2].
  apply andb_true_iff in Hb1. destruct Hb1 as [H0min _].
  apply andb_true_iff in Hb2. destruct Hb2 as [_ Hmax10].
  simpl in Hin. apply filter_In in Hin. destruct Hin as [_ Hin].
  rewrite in_magnitude_range_spec in Hin.
  apply (spec_included_true (N := Double.number)) in Hin.
  destruct Hin as (m' & Hm' & H1 & H2).
  rewrite Hm in Hm'. injection Hm' as <-.
  destruct Hout as [Hlow|Hhigh].
  - assert (H : (0 <=? m)%float = true) by exact (leb_trans H0min H1).
    rewrite (ltb_not_leb Hlow) in H. discriminate.
  - assert (H : (m <=? 10)%float = true) by exact (leb_trans H2 Hmax10).
    rewrite (ltb_not_leb Hhigh) in H. discriminate.
Qed.

(** An event of magnitude -0.5, the maximum slider moved to 3 and the
    minimum slider left at 0. *)
Lemma out_of_slider_range_never_listed_witness :
  ~ In MoreSamples.microquake
       (filteredEarthquakes (Some MoreSamples.wide_feed)
          (run_actions initial_filters [SlideMaxMagnitude 3%float; SlideMinMagnitude 0%float])).
Proof.
  apply (@out_of_slider_range_never_listed
           [SlideMaxMagnitude 3%float; SlideMinMagnitude 0%float]
           MoreSamples.wide_feed MoreSamples.microquake (-0.5)%float).
  - reflexivity.
  - reflexivity.
  - left. reflexivity.
Defined.

(** ** More on the Aggregator *)

Section AggregatorFacts.

Context {num : Type} {N : JsNumber num}.

Lemma magnitudes_In (l : list (Earthquake num)) (m : num) :
  In m (magnitudes l) <-> exists eq, In eq l /\ mag (properties eq) = JsNum m.
Proof.
  unfold magnitudes. induction l as [|e l IH]; simpl.
  - split; [contradiction | intros (eq & [] & _)].
  - destruct (mag (properties e)) as [| |m'] eqn:E; simpl.
    + rewrite IH. split.
      * intros (eq & Hin & Hm). exists eq. split; [right; exact Hin | exact Hm].
      * intros (eq & [<-|Hin] & Hm); [congruence | exists eq; split; assumption].
    + rewrite IH. split.
      * intros (eq & Hin & Hm). exists eq. split; [right; exact Hin | exact Hm].
      * intros (eq & [<-|Hin] & Hm); [congruence | exists eq; split; assumption].
    + rewrite IH. split.
      * intros [<-|(eq & Hin & Hm)].
        -- exists e. split; [left; reflexivity | exact E].
        -- exists eq. split; [right; exact Hin | exact Hm].
      * intros (eq & [<-|Hin] & Hm).
        -- left. congruence.
        -- right. exists eq. split; assumption.
Qed.

Lemma magnitudes_of_present (l : list (Earthquake num)) :
  magnitudes (filter (@magnitude_present num) l) = magnitudes l.
Proof.
  unfold magnitudes, magnitude_present. induction l as [|e l IH]; simpl.
  - reflexivity.
  - destruct (mag (properties e)) as [| |m] eqn:E; simpl; rewrite ?E; simpl;
      rewrite IH; reflexivity.
Qed.

Lemma significant_of_present (l : list (Earthquake num)) :
  filter is_significant (filter (@magnitude_present num) l) = filter is_significant l.
Proof.
  apply filter_of_wider_filter. intros eq.
  rewrite is_significant_spec. apply spec_significant_present.
Qed.

(** Except for [total], the statistics of a list are those of its events
    with a present magnitude. *)
Lemma stats_of_present (l : list (Earthquake num)) :
  stats_avgMagnitude (stats l)
  = stats_avgMagnitude (stats (filter (@magnitude_present num) l))
  /\ stats_maxMagnitude (stats l)
     = stats_maxMagnitude (stats (filter (@magnitude_present num) l))
  /\ stats_significant (stats l)
     = stats_significant (stats (filter (@magnitude_present num) l)).
Proof.
  unfold stats.
  destruct (stats_traced_cases l) as [[-> _]|[(Hl & Hm & _)|(Hm & _)]].
  - repeat split.
  - assert (Hp : filter (@magnitude_present num) l = []).
    { apply length_zero_iff_nil. rewrite <- magnitudes_length, Hm. reflexivity. }
    rewrite Hp, (stats_traced_no_magnitude Hl Hm). repeat split.
  - assert (Hm' : magnitudes (filter (@magnitude_present num) l) <> [])
      by (rewrite magnitudes_of_present; exact Hm).
    rewrite (stats_traced_aggregate l Hm), (stats_traced_aggregate _ Hm').
    simpl. rewrite magnitudes_of_present, significant_of_present.
    repeat split.
Qed.

End AggregatorFacts.

Lemma magnitudes_present_magnitudes
    (num : Type) {N : JsNumber num} (l : list (Earthquake num)) :
  magnitudes l = present_magnitudes l.
Proof.
  unfold magnitudes, present_magnitudes.
  induction l as [|e l IH]; simpl.
  - reflexivity.
  - destruct (mag (properties e)); simpl; rewrite IH; reflexivity.
Qed.

(** Events without a magnitude count in [total] and in nothing else: the
    average, the maximum and the number of significant events of a list are
    those of its events with a present magnitude.  When there is such an
    event the average is the sum of the present magnitudes, added from 0 in
    the order of the list, divided by the number of events with a present
    magnitude, not by [total]; when there is none it is 0. *)
Theorem absent_magnitudes_only_count_in_total (subset : list (Earthquake float)) :
  stats_total (stats subset) = length subset
  /\ stats_total (stats (filter (@magnitude_present float) subset))
     = length (magnitudes subset)
  /\ stats_avgMagnitude (stats subset)
     = stats_avgMagnitude (stats (filter (@magnitude_present float) subset))
  /\ stats_maxMagnitude (stats subset)
     = stats_maxMagnitude (stats (filter (@magnitude_present float) subset))
  /\ stats_significant (stats subset)
     = stats_significant (stats (filter (@magnitude_present float) subset))
  /\ ((exists eq, In eq subset /\ magnitude_present eq = true) ->
      stats_avgMagnitude (stats subset)
      = (fold_left PrimFloat.add (present_magnitudes subset) 0
         / Double.of_nat (length (filter (@magnitude_present float) subset)))%float)
  /\ ((forall eq, In eq subset -> magnitude_present eq = false) ->
      stats_avgMagnitude (stats subset) = 0%float).
Proof.
  split; [apply stats_total_length|].
  split; [rewrite stats_total_length; symmetry; apply magnitudes_length|].
  destruct (stats_of_present subset) as (Ha & Hm & Hs).
  split; [exact Ha|]. split; [exact Hm|]. split; [exact Hs|]. split.
  - intros (e & He & Hp).
    assert (Hne : magnitudes subset <> []).
    { intros Hnil.
      assert (Hlen : length (filter (@magnitude_present float) subset) = 0)
        by (rewrite <- magnitudes_length, Hnil; reflexivity).
      apply length_zero_iff_nil in Hlen.
      assert (Hin : In e (filter (@magnitude_present float) subset))
        by (apply filter_In; split; assumption).
      rewrite Hlen in Hin. contradiction. }
    unfold stats. rewrite (stats_traced_aggregate subset Hne). simpl.
    rewrite magnitudes_length.
    rewrite (magnitudes_present_magnitudes (N := Double.number)). reflexivity.
  - intros Hnone. unfold stats.
    destruct subset as [|e l]; [reflexivity|].
    rewrite (@stats_traced_no_magnitude float _ (e :: l));
      [reflexivity | discriminate | exact (magnitudes_none_present (e :: l) Hnone)].
Qed.

(** Two events without magnitude and two of magnitudes 6.2 and 4.8: the
    average is their sum divided by 2, while [total] is 4. *)
Lemma absent_magnitudes_only_count_in_total_witness :
  stats_avgMagnitude (stats MoreSamples.half_absent)
  = (fold_left PrimFloat.add (present_magnitudes MoreSamples.half_absent) 0
     / Double.of_nat (length (filter (@magnitude_present float) MoreSamples.half_absent)))%float
  /\ present_magnitudes MoreSamples.half_absent = [6.2; 4.8]%float
  /\ length (filter (@magnitude_present float) MoreSamples.half_absent) = 2
  /\ stats_total (stats MoreSamples.half_absent) = 4.
Proof.
  split; [|repeat split].
  apply (proj1 (proj2 (proj2 (proj2 (proj2 (proj2
           (absent_magnitudes_only_count_in_total MoreSamples.half_absent))))))).
  exists Samples.quake1. split; [right; left; reflexivity | reflexivity].
Defined.

(** The magnitudes of an output of the filter lie between the bounds; in
    particular none of them is NaN. *)
Lemma filtered_magnitudes_in_range
    (data : option (EarthquakeResponse float)) (filters : FilterState float)
    (m : float) :
  In m (magnitudes (filteredEarthquakes data filters)) ->
  (minMagnitude filters <=? m)%float = true
  /\ (m <=? maxMagnitude filters)%float = true.
Proof.
  intros Hin. apply magnitudes_In in Hin. destruct Hin as (eq & Hin & Hm).
  destruct data as [d|]; [|contradiction].
  simpl in Hin. apply filter_In in Hin. destruct Hin as [_ Hin].
  rewrite in_magnitude_range_spec in Hin.
  apply (spec_included_true (N := Double.number)) in Hin.
  destruct Hin as (m' & Hm' & H). rewrite Hm in Hm'. injection Hm' as <-.
  exact H.
Qed.

Lemma filtered_magnitudes_nonempty
    (data : option (EarthquakeResponse float)) (filters : FilterState float) :
  filteredEarthquakes data filters <> [] ->
  magnitudes (filteredEarthquakes data filters) <> [].
Proof.
  intros Hne E. apply Hne, length_zero_iff_nil.
  rewrite <- (magnitudes_all_present (filteredEarthquakes data filters)).
  - rewrite E. reflexivity.
  - intros eq. apply filteredEarthquakes_present.
Qed.

(** When at least one event of the list has a magnitude and no magnitude is
    NaN, [maxMagnitude] is the magnitude of one of the events and no event
    of the list has a greater one. *)
Theorem max_magnitude_is_greatest (subset : list (Earthquake float)) :
  (exists eq, In eq subset /\ magnitude_present eq = true) ->
  (forall eq m, In eq subset -> mag (properties eq) = JsNum m ->
                PrimFloat.is_nan m = false) ->
  (exists eq, In eq subset
              /\ mag (properties eq) = JsNum (stats_maxMagnitude (stats subset)))
  /\ (forall eq m, In eq subset -> mag (properties eq) = JsNum m ->
                   (m <=? stats_maxMagnitude (stats subset))%float = true).
Proof.
  intros (e & He & Hp) Hnan.
  assert (Hm : magnitudes subset <> []).
  { unfold magnitude_present in Hp.
    destruct (mag (properties e)) as [| |m] eqn:E; try discriminate.
    intros Hnil.
    assert (Hin : In m (magnitudes subset))
      by (apply magnitudes_In; exists e; split; assumption).
    rewrite Hnil in Hin. contradiction. }
  assert (Hnan' : forall x, In x (magnitudes subset) -> PrimFloat.is_nan x = false).
  { intros x Hx. apply magnitudes_In in Hx. destruct Hx as (eq & Hin & Hx).
    exact (Hnan eq x Hin Hx). }
  destruct (Math_max_spec Hm Hnan') as [Hsel Hall].
  unfold stats. rewrite (stats_traced_aggregate subset Hm). simpl.
  split.
  - apply magnitudes_In. exact Hsel.
  - intros eq m Hin Hmag. apply Hall, magnitudes_In.
    exists eq. split; assumption.
Qed.

(** In the scenario the strongest event is event 1, of magnitude 6.2. *)
Lemma max_magnitude_is_greatest_witness :
  (4.8 <=? stats_maxMagnitude (stats (features Samples.scenario)))%float = true.
Proof.
  destruct (max_magnitude_is_greatest (features Samples.scenario)) as [_ H].
  - exists Samples.quake1. split; [left; reflexivity | reflexivity].
  - intros eq m [<-|[<-|[<-|[<-|[]]]]] Hm; inversion Hm; reflexivity.
  - apply (H Samples.quake3 4.8%float).
    + right. right. left. reflexivity.
    + reflexivity.
Defined.

(** The "Strongest Quake" of a non-empty filtered subset lies between the
    two bounds of the filter. *)
Theorem max_magnitude_within_filter_bounds
    (data : option (EarthquakeResponse float)) (filters : FilterState float) :
  filteredEarthquakes data filters <> [] ->
  (minMagnitude filters
   <=? stats_maxMagnitude (stats (filteredEarthquakes data filters)))%float = true
  /\ (stats_maxMagnitude (stats (filteredEarthquakes data filters))
      <=? maxMagnitude filters)%float = true.
Proof.
  intros Hne.
  assert (Hm := filtered_magnitudes_nonempty data filters Hne).
  assert (Hnan : forall x, In x (magnitudes (filteredEarthquakes data filters)) ->
                           PrimFloat.is_nan x = false).
  { intros x Hx.
    destruct (filtered_magnitudes_in_range data filters x Hx) as [H _].
    apply (leb_not_nan H). }
  destruct (Math_max_spec Hm Hnan) as [Hsel _].
  unfold stats. rewrite (stats_traced_aggregate _ Hm). simpl.
  apply (filtered_magnitudes_in_range data filters). exact Hsel.
Qed.

Lemma max_magnitude_within_filter_bounds_witness :
  (5.0 <=? stats_maxMagnitude
             (stats (filteredEarthquakes (Some Samples.scenario) Samples.from_5_to_10)))%float
  = true.
Proof.
  apply (max_magnitude_within_filter_bounds (Some Samples.scenario) Samples.from_5_to_10).
  discriminate.
Defined.

(** With the minimum bound at 5 or more every listed event is significant:
    "Significant Events" equals "Total Earthquakes"; with the maximum bound
    below 5 no listed event is significant. *)
Theorem significant_against_bounds
    (data : option (EarthquakeResponse float)) (filters : FilterState float) :
  ((5 <=? minMagnitude filters)%float = true ->
   stats_significant (stats (filteredEarthquakes data filters))
   = stats_total (stats (filteredEarthquakes data filters)))
  /\ ((maxMagnitude filters <? 5)%float = true ->
      stats_significant (stats (filteredEarthquakes data filters)) = 0).
Proof.
  rewrite stats_significant_count, stats_total_length.
  assert (Hrange : forall eq, In eq (filteredEarthquakes data filters) ->
            exists m, mag (properties eq) = JsNum m
                      /\ (minMagnitude filters <=? m)%float = true
                      /\ (m <=? maxMagnitude filters)%float = true).
  { intros eq Hin. destruct data as [d|]; [|contradiction].
    simpl in Hin. apply filter_In in Hin. destruct Hin as [_ Hin].
    rewrite in_magnitude_range_spec in Hin.
    apply (spec_included_true (N := Double.number)) in Hin. exact Hin. }
  split; intros Hb.
  - rewrite filter_fixed; [reflexivity|].
    intros eq Hin. destruct (Hrange eq Hin) as (m & Hm & H1 & _).
    unfold spec_significant. rewrite Hm. exact (leb_trans Hb H1).
  - rewrite filter_none; [reflexivity|].
    intros eq Hin. destruct (Hrange eq Hin) as (m & Hm & _ & H2).
    unfold spec_significant. rewrite Hm.
    destruct (num_leb (num_of_nat 5) m) eqn:E; [|reflexivity].
    assert (H : (5 <=? maxMagnitude filters)%float = true) by exact (leb_trans E H2).
    rewrite (ltb_not_leb Hb) in H. discriminate.
Qed.

Lemma significant_against_bounds_witness :
  stats_significant
    (stats (filteredEarthquakes (Some Samples.scenario) Samples.from_5_to_10))
  = stats_total
      (stats (filteredEarthquakes (Some Samples.scenario) Samples.from_5_to_10))
  /\ stats_significant
       (stats (filteredEarthquakes (Some MoreSamples.wide_feed) MoreSamples.below_5))
     = 0.
Proof.
  split.
  - apply (proj1 (significant_against_bounds
                    (Some Samples.scenario) Samples.from_5_to_10)).
    reflexivity.
  - apply (proj2 (significant_against_bounds
                    (Some MoreSamples.wide_feed) MoreSamples.below_5)).
    reflexivity.
Defined.

(** ** The magnitude badge *)

Section ColourBands.

Variable m : float.

Lemma leb_threshold_down (a b : float) :
  (a <=? b)%float = true -> (b <=? m)%float = true -> (a <=? m)%float = true.
Proof. intros Hab Hb. exact (leb_trans Hab Hb). Qed.

Lemma leb_threshold_false (a b : float) :
  (a <=? b)%float = true -> (a <=? m)%float = false -> (b <=? m)%float = false.
Proof.
  intros Hab Ha. destruct (b <=? m)%float eqn:E; [|reflexivity].
  rewrite (leb_threshold_down Hab E) in Ha. discriminate.
Qed.

Lemma below_threshold (a : float) :
  PrimFloat.is_nan a = false -> PrimFloat.is_nan m = false ->
  ((a <=? m)%float = false <-> (m <? a)%float = true).
Proof.
  intros Ha Hm. split.
  - apply leb_total; assumption.
  - apply ltb_not_leb.
Qed.

End ColourBands.

(** The colour of the badge by bands of magnitude: 7 and more, 6 to 7,
    5 to 6, 4 to 5, 3 to 4, below 3 (lower bounds included, upper bounds
    excluded); a NaN magnitude gets the colour of the lowest band. *)
Theorem magnitude_colour_bands (m : float) :
  (PrimFloat.is_nan m = false ->
   (getMagnitudeColor m = "bg-destructive text-destructive-foreground"%string
    <-> (7 <=? m)%float = true)
   /\ (getMagnitudeColor m = "bg-orange-500 text-white"%string
       <-> (6 <=? m)%float = true /\ (m <? 7)%float = true)
   /\ (getMagnitudeColor m = "bg-amber-500 text-white"%string
       <-> (5 <=? m)%float = true /\ (m <? 6)%float = true)
   /\ (getMagnitudeColor m = "bg-yellow-500 text-black"%string
       <-> (4 <=? m)%float = true /\ (m <? 5)%float = true)
   /\ (getMagnitudeColor m = "bg-lime-500 text-black"%string
       <-> (3 <=? m)%float = true /\ (m <? 4)%float = true)
   /\ (getMagnitudeColor m = "bg-green-500 text-white"%string
       <-> (m <? 3)%float = true))
  /\ (PrimFloat.is_nan m = true ->
      getMagnitudeColor m = "bg-green-500 text-white"%string).
Proof.
  split.
  - intros Hm.
    pose proof (proj1 (below_threshold m 7 eq_refl Hm)) as L7.
    pose proof (proj1 (below_threshold m 6 eq_refl Hm)) as L6.
    pose proof (proj1 (below_threshold m 5 eq_refl Hm)) as L5.
    pose proof (proj1 (below_threshold m 4 eq_refl Hm)) as L4.
    pose proof (proj1 (below_threshold m 3 eq_refl Hm)) as L3.
    pose proof (@ltb_not_leb 7 m) as N7.
    pose proof (@ltb_not_leb 6 m) as N6.
    pose proof (@ltb_not_leb 5 m) as N5.
    pose proof (@ltb_not_leb 4 m) as N4.
    pose proof (@ltb_not_leb 3 m) as N3.
    pose proof (@leb_threshold_down m 6 7 eq_refl) as D7.
    pose proof (@leb_threshold_down m 5 6 eq_refl) as D6.
    pose proof (@leb_threshold_down m 4 5 eq_refl) as D5.
    pose proof (@leb_threshold_down m 3 4 eq_refl) as D4.
    unfold getMagnitudeColor.
    change (num_leb (num_of_nat 7) m) with (7 <=? m)%float.
    change (num_leb (num_of_nat 6) m) with (6 <=? m)%float.
    change (num_leb (num_of_nat 5) m) with (5 <=? m)%float.
    change (num_leb (num_of_nat 4) m) with (4 <=? m)%float.
    change (num_leb (num_of_nat 3) m) with (3 <=? m)%float.
    destruct (7 <=? m)%float; [specialize (D7 eq_refl) | specialize (L7 eq_refl)];
    (destruct (6 <=? m)%float; [specialize (D6 eq_refl) | specialize (L6 eq_refl)]);
    (destruct (5 <=? m)%float; [specialize (D5 eq_refl) | specialize (L5 eq_refl)]);
    (destruct (4 <=? m)%float; [specialize (D4 eq_refl) | specialize (L4 eq_refl)]);
    (destruct (3 <=? m)%float; [| specialize (L3 eq_refl)]);
    try discriminate;
    repeat split; intros; try discriminate; try reflexivity; try assumption;
    repeat match goal with
           | H : _ /\ _ |- _ => destruct H
           | H : ?x = true, N : ?x = true -> _ |- _ => specialize (N H)
           end;
    try discriminate.
  - intros Hm. unfold getMagnitudeColor.
    assert (Hn : forall a, num_leb a m = false).
    { intros a. destruct (num_leb a m) eqn:E; [|reflexivity].
      destruct (leb_not_nan E) as [_ H]. rewrite H in Hm. discriminate. }
    rewrite !Hn. reflexivity.
Qed.

Lemma magnitude_colour_bands_witness :
  getMagnitudeColor 5.5%float = "bg-amber-500 text-white"%string.
Proof.
  apply (proj1 (proj2 (proj2 (proj1 (magnitude_colour_bands 5.5%float) eq_refl)))).
  split; reflexivity.
Defined.

(** An event is counted by "Significant Events" exactly when its badge has
    one of the three colours of the bands from 5 upwards. *)
Theorem significant_iff_warm_colour (eq : Earthquake float) (m : float) :
  mag (properties eq) = JsNum m ->
  (is_significant eq = true <->
   In (getMagnitudeColor m)
      ["bg-destructive text-destructive-foreground";
       "bg-orange-500 text-white";
       "bg-amber-500 text-white"]%string).
Proof.
  intros Hm. unfold is_significant. rewrite Hm.
  change (strict_ne_null (JsNum m) && js_ge (JsNum m) (num_of_nat 5))
    with (5 <=? m)%float.
  pose proof (@leb_threshold_false m 5 7 eq_refl) as F7.
  pose proof (@leb_threshold_false m 5 6 eq_refl) as F6.
  unfold getMagnitudeColor.
  change (num_leb (num_of_nat 7) m) with (7 <=? m)%float.
  change (num_leb (num_of_nat 6) m) with (6 <=? m)%float.
  change (num_leb (num_of_nat 5) m) with (5 <=? m)%float.
  destruct (5 <=? m)%float.
  - split; [intros _|reflexivity].
    destruct (7 <=? m)%float; [left; reflexivity|].
    destruct (6 <=? m)%float; [right; left; reflexivity|].
    right. right. left. reflexivity.
  - rewrite (F7 eq_refl), (F6 eq_refl).
    split; [discriminate|].
    destruct (num_leb (num_of_nat 4) m), (num_leb (num_of_nat 3) m);
      intros [H|[H|[H|[]]]]; discriminate H.
Qed.

Lemma significant_iff_warm_colour_witness :
  is_significant Samples.quake1 = true.
Proof.
  apply (proj2 (significant_iff_warm_colour Samples.quake1 (m := 6.2%float) eq_refl)).
  right. left. reflexivity.
Defined.

(** Every card of the list gets its badge: the events the list shows have a
    number for magnitude, within the bounds of the filter, so reading
    [toFixed] never throws there; it would for an event whose magnitude is
    [null] or missing. *)
Theorem listed_cards_have_badges
    (filters : FilterState float) (swr : SWRResponse float) :
  (forall b, In b (card_badges (listPanel (QuakeTrakr filters swr))) ->
     exists m, b = Some ((getMagnitudeColor m ++ " font-bold text-base px-3 py-1")%string, m)
               /\ (minMagnitude filters <=? m)%float = true
               /\ (m <=? maxMagnitude filters)%float = true)
  /\ (forall eq : Earthquake float,
        mag (properties eq) = JsNull \/ mag (properties eq) = JsUndefined ->
        magnitude_badge eq = None).
Proof.
  split.
  - intros b Hb. unfold QuakeTrakr in Hb. simpl listPanel in Hb.
    destruct (isLoading swr); [contradiction|].
    destruct (length (filteredEarthquakes (data swr) filters) =? 0); [contradiction|].
    simpl in Hb. apply in_map_iff in Hb. destruct Hb as (eq & <- & Hin).
    destruct (data swr) as [d|]; [|contradiction].
    simpl in Hin. apply filter_In in Hin. destruct Hin as [_ Hin].
    rewrite in_magnitude_range_spec in Hin.
    apply (spec_included_true (N := Double.number)) in Hin.
    destruct Hin as (m & Hm & H). exists m. split; [|exact H].
    unfold magnitude_badge. rewrite Hm. reflexivity.
  - intros eq [H|H]; unfold magnitude_badge; rewrite H; reflexivity.
Qed.

Lemma listed_cards_have_badges_witness :
  magnitude_badge Samples.quake2 = None.
Proof.
  apply (proj2 (listed_cards_have_badges initial_filters swr_loading)).
  left. reflexivity.
Defined.

(** ** The three regions of the page *)

(** When the statistics grid is displayed, "Total Earthquakes" is the number
    of events that pass the filter; it is the [n] of "Showing n of m", with
    [n <= m]; the list shows "No earthquakes found" when it is 0 and that
    many cards otherwise; and "Significant Events" is at most the total. *)
Theorem displayed_counts_agree
    (filters : FilterState float) (swr : SWRResponse float)
    (s : Stats float) (label : string) :
  statsPanel (QuakeTrakr filters swr) = StatsCards s label ->
  stats_total s = length (filteredEarthquakes (data swr) filters)
  /\ stats_significant s <= stats_total s
  /\ label = fst (timeframeConfig (timeframe filters))
  /\ (forall n m, showing (QuakeTrakr filters swr) = Some (n, m) ->
                  n = stats_total s /\ n <= m)
  /\ (stats_total s = 0 -> listPanel (QuakeTrakr filters swr) = NoEarthquakesFound)
  /\ (stats_total s <> 0 ->
      exists l, listPanel (QuakeTrakr filters swr) = EarthquakeCards l
                /\ length l = stats_total s
                /\ length (card_badges (listPanel (QuakeTrakr filters swr)))
                   = stats_total s).
Proof.
  unfold QuakeTrakr. simpl statsPanel. simpl showing. simpl listPanel.
  destruct (isLoading swr); [discriminate|].
  destruct (error swr); [discriminate|].
  intros H. injection H as <- <-.
  rewrite stats_total_length.
  split; [reflexivity|]. split.
  - rewrite stats_significant_count.
    apply Subsequence_length, filter_Subsequence.
  - split; [reflexivity|]. split; [|split].
    + intros n m Hs. destruct (data swr) as [d|]; [|discriminate].
      injection Hs as <- <-. split; [reflexivity|].
      simpl. apply Subsequence_length, filter_Subsequence.
    + intros H0. rewrite H0. reflexivity.
    + intros Hn. apply Nat.eqb_neq in Hn. rewrite Hn.
      exists (filteredEarthquakes (data swr) filters).
      split; [reflexivity|]. split; [reflexivity|].
      simpl. apply length_map.
Qed.

Lemma displayed_counts_agree_witness :
  stats_total (stats (filteredEarthquakes (Some Samples.scenario) initial_filters))
  = length (filteredEarthquakes (Some Samples.scenario) initial_filters).
Proof.
  apply (displayed_counts_agree initial_filters (MoreSamples.loaded Samples.scenario)
           (label := "Past Day")).
  reflexivity.
Defined.

(** ** The timeframe *)

(** The address of the feed is determined by the timeframe and determines
    it: two filter states request the same address exactly when they have
    the same timeframe; moving a slider never changes the address, and a
    timeframe button changes it unless it is the button of the current
    timeframe. *)
Theorem feed_url_follows_timeframe
    (filters filters' : FilterState float) (value : float) (tf : TimeFrame) :
  (feed_url filters = feed_url filters' <-> timeframe filters = timeframe filters')
  /\ feed_url (setFilters filters (SlideMinMagnitude value)) = feed_url filters
  /\ feed_url (setFilters filters (SlideMaxMagnitude value)) = feed_url filters
  /\ (feed_url (setFilters filters (ClickTimeframe tf)) = feed_url filters
      <-> tf = timeframe filters).
Proof.
  assert (Hinj : forall a b : TimeFrame,
            (("https://earthquake.usgs.gov/earthquakes/feed/v1.0/summary/"
                ++ snd (timeframeConfig a) ++ ".geojson")
             = ("https://earthquake.usgs.gov/earthquakes/feed/v1.0/summary/"
                  ++ snd (timeframeConfig b) ++ ".geojson"))%string
            <-> a = b).
  { intros a b. split; [|intros ->; reflexivity].
    destruct a, b; simpl; intros H; try reflexivity; discriminate H. }
  unfold feed_url. split; [apply Hinj|].
  split; [reflexivity|]. split; [reflexivity|].
  simpl. apply Hinj.
Qed.

(** The row of timeframe buttons has one button per timeframe, in the order
    hour, day, week, month; exactly one of them has the variant "default",
    the button of the current timeframe, and after a click on a button it is
    that button. *)
Theorem one_timeframe_button_selected (filters : FilterState float) (tf : TimeFrame) :
  map (fun b => fst (fst b)) (timeframe_buttons filters) = [hour; day; week; month]
  /\ map (fun b => fst (fst b))
         (filter (fun b => String.eqb (snd (fst b)) "default") (timeframe_buttons filters))
     = [timeframe filters]
  /\ map (fun b => fst (fst b))
         (filter (fun b => String.eqb (snd (fst b)) "default")
                 (timeframe_buttons (setFilters filters (ClickTimeframe tf))))
     = [tf]
  /\ (forall b, In b (timeframe_buttons filters) ->
        snd (fst b) = "default"%string \/ snd (fst b) = "outline"%string).
Proof.
  split; [reflexivity|]. split; [|split].
  - unfold timeframe_buttons. destruct (timeframe filters); reflexivity.
  - unfold timeframe_buttons. simpl timeframe. destruct tf; reflexivity.
  - unfold timeframe_buttons. intros b Hb.
    destruct (timeframe filters); simpl in Hb;
      repeat (destruct Hb as [<-|Hb]; [simpl; auto|]); contradiction.
Qed.

(** ** The age of an event *)

Section FormatTime.

Local Open Scope Z_scope.

(** The three quotients of [formatTime], by their Euclidean equations. *)
Lemma quotients_of (d : Z) :
  (60000 * (d / 60000) <= d < 60000 * (d / 60000) + 60000)
  /\ (3600000 * (d / 3600000) <= d < 3600000 * (d / 3600000) + 3600000)
  /\ (86400000 * (d / 86400000) <= d < 86400000 * (d / 86400000) + 86400000).
Proof.
  pose proof (Z.div_mod d 60000 ltac:(lia)).
  pose proof (Z.mod_pos_bound d 60000 ltac:(lia)).
  pose proof (Z.div_mod d 3600000 ltac:(lia)).
  pose proof (Z.mod_pos_bound d 3600000 ltac:(lia)).
  pose proof (Z.div_mod d 86400000 ltac:(lia)).
  pose proof (Z.mod_pos_bound d 86400000 ltac:(lia)).
  lia.
Qed.

Lemma string_of_negative (z : Z) :
  z < 0 -> exists s, string_of_Z z = ("-" ++ s)%string.
Proof.
  destruct z as [|p|p]; try lia. intros _.
  unfold string_of_Z. simpl. eexists. reflexivity.
Qed.

End FormatTime.

(** The age of a past event is given in whole minutes below one hour, in
    whole hours below one day and in whole days from then on, each rounded
    down; "hour" and "day" take an "s" from 2 on, so that the texts are
    "1 hour ago" and "1 day ago" for the first hour and day, and a number of
    hours from 2 to 23 or of days from 2 otherwise. *)
Theorem formatTime_of_past_event (now timestamp : Z) :
  time_value now -> time_value timestamp ->
  ((0 <= now - timestamp < 3600000)%Z ->
   formatTime now timestamp
   = (string_of_Z ((now - timestamp) / 60000) ++ " min ago")%string
   /\ (0 <= (now - timestamp) / 60000 <= 59)%Z)
  /\ ((3600000 <= now - timestamp < 7200000)%Z ->
      formatTime now timestamp = "1 hour ago"%string)
  /\ ((7200000 <= now - timestamp < 86400000)%Z ->
      formatTime now timestamp
      = (string_of_Z ((now - timestamp) / 3600000) ++ " hours ago")%string
      /\ (2 <= (now - timestamp) / 3600000 <= 23)%Z)
  /\ ((86400000 <= now - timestamp < 172800000)%Z ->
      formatTime now timestamp = "1 day ago"%string)
  /\ ((172800000 <= now - timestamp)%Z ->
      formatTime now timestamp
      = (string_of_Z ((now - timestamp) / 86400000) ++ " days ago")%string
      /\ (2 <= (now - timestamp) / 86400000)%Z).
Proof.
  intros _ _. unfold formatTime. cbv zeta.
  destruct (quotients_of (now - timestamp)) as (Hm & Hh & Hd).
  split; [|split; [|split; [|split]]]; intros H.
  - destruct (Z.ltb_spec ((now - timestamp) / 60000) 60); [|lia].
    split; [reflexivity | lia].
  - destruct (Z.ltb_spec ((now - timestamp) / 60000) 60); [lia|].
    replace ((now - timestamp) / 3600000)%Z with 1%Z by lia. reflexivity.
  - destruct (Z.ltb_spec ((now - timestamp) / 60000) 60); [lia|].
    destruct (Z.ltb_spec ((now - timestamp) / 3600000) 24); [|lia].
    destruct (Z.ltb_spec 1 ((now - timestamp) / 3600000)); [|lia].
    split; [reflexivity | lia].
  - destruct (Z.ltb_spec ((now - timestamp) / 60000) 60); [lia|].
    destruct (Z.ltb_spec ((now - timestamp) / 3600000) 24); [lia|].
    replace ((now - timestamp) / 86400000)%Z with 1%Z by lia. reflexivity.
  - destruct (Z.ltb_spec ((now - timestamp) / 60000) 60); [lia|].
    destruct (Z.ltb_spec ((now - timestamp) / 3600000) 24); [lia|].
    destruct (Z.ltb_spec 1 ((now - timestamp) / 86400000)); [|lia].
    split; [reflexivity | lia].
Qed.

Lemma formatTime_of_past_event_witness :
  formatTime MoreSamples.new_year (MoreSamples.new_year - 5400000)%Z
  = "1 hour ago"%string.
Proof.
  apply (proj1 (proj2 (@formatTime_of_past_event
                         MoreSamples.new_year (MoreSamples.new_year - 5400000)%Z
                         ltac:(unfold time_value, MoreSamples.new_year; lia)
                         ltac:(unfold time_value, MoreSamples.new_year; lia)))).
  unfold MoreSamples.new_year. lia.
Defined.

(** For an event dated after the clock of the browser the age is a negative
    number of minutes, whatever the distance: the text begins with a minus
    sign and ends in "min ago". *)
Theorem formatTime_of_future_event (now timestamp : Z) :
  time_value now -> time_value timestamp ->
  (now < timestamp)%Z ->
  formatTime now timestamp
  = (string_of_Z ((now - timestamp) / 60000) ++ " min ago")%string
  /\ ((now - timestamp) / 60000 <= -1)%Z
  /\ exists s, formatTime now timestamp = ("-" ++ s)%string.
Proof.
  intros _ _ Hf. unfold formatTime. cbv zeta.
  destruct (quotients_of (now - timestamp)) as (Hm & _ & _).
  assert (Hneg : ((now - timestamp) / 60000 <= -1)%Z) by lia.
  destruct (Z.ltb_spec ((now - timestamp) / 60000) 60); [|lia].
  split; [reflexivity|]. split; [exact Hneg|].
  destruct (@string_of_negative ((now - timestamp) / 60000)%Z) as [s Hs]; [lia|].
  rewrite Hs. eexists. reflexivity.
Qed.

Lemma formatTime_of_future_event_witness :
  formatTime MoreSamples.new_year (MoreSamples.new_year + 86400000)%Z
  = "-1440 min ago"%string.
Proof.
  rewrite (proj1 (@formatTime_of_future_event
                    MoreSamples.new_year (MoreSamples.new_year + 86400000)%Z
                    ltac:(unfold time_value, MoreSamples.new_year; lia)
                    ltac:(unfold time_value, MoreSamples.new_year; lia)
                    ltac:(unfold MoreSamples.new_year; lia))).
  reflexivity.
Defined.
